(** * dnstt client: tunnel bring-up, stream bridge and teardown

    A shallow embedding of package [client] (tunnel.go and the file that
    declares [Resolver], [TunnelServer] and [Outbound]) and of
    [cmd/dnstt-client/main.go], together with the properties of the
    natural-language specification that concern them.

    Conventions.  Go's [int] is a 64-bit integer carried in [Z] with its
    wrap-around written out.  A Go function returning [(T, error)] returns
    a [result T]; one returning [error] returns an [option error] ([None]
    is [nil]).  Code with effects runs in the monad [M]: it threads the
    mutable object it works on, collects the externally visible calls it
    makes as a list of events, and ends by returning, by panicking, or by
    never returning.  The packages the client is built on (net, io, kcp,
    smux, noise, dns, turbotunnel) are not part of these sources; what they
    answer is taken from an environment record [Env]. *)

From Stdlib Require Import ZArith List String Ascii Bool Lia.
Import ListNotations.
Open Scope string_scope.
Open Scope list_scope.
Open Scope Z_scope.

(* ================================================================== *)
(** ** Go primitives *)

Module Go.

Definition int_min : Z := - 2 ^ 63.
Definition int_max : Z := 2 ^ 63 - 1.

Definition in_int (z : Z) : Prop := int_min <= z <= int_max.

(** Two's-complement wrap-around of a 64-bit [int]. *)
Definition wrap (z : Z) : Z := (z + 2 ^ 63) mod 2 ^ 64 - 2 ^ 63.

Definition sub (a b : Z) : Z := wrap (a - b).

(** Operands of a format string other than an error value. *)
Inductive fmtarg : Type :=
| AStr (s : string)
| AInt (z : Z).

(** Error values.  [io_EOF] and [io_ErrClosedPipe] are the two sentinel
    values of package io that the client compares against.  [Foreign] is
    an error made by another package, [ForeignWrap] one that has an
    [Unwrap] method.  The three [Errorf] constructors are the shapes of
    [fmt.Errorf] calls in the sources: no error operand, an error operand
    under [%v] (its text only), an error operand under [%w] (wrapped). *)
Inductive error : Type :=
| io_EOF
| io_ErrClosedPipe
| Foreign (msg : string)
| ForeignWrap (msg : string) (inner : error)
| Errorf (format : string) (args : list fmtarg)
| Errorf_v (format : string) (args : list fmtarg) (operand : error)
| Errorf_w (format : string) (args : list fmtarg) (operand : error).

Definition Unwrap (e : error) : option error :=
  match e with
  | ForeignWrap _ inner => Some inner
  | Errorf_w _ _ operand => Some operand
  | _ => None
  end.

(** [err == io.EOF]: identity with the sentinel, no unwrapping. *)
Definition is_EOF (e : error) : bool :=
  match e with io_EOF => true | _ => false end.

(** [errors.Is(err, io.ErrClosedPipe)]: follows the [Unwrap] chain. *)
Fixpoint Is_ErrClosedPipe (e : error) : bool :=
  match e with
  | io_ErrClosedPipe => true
  | ForeignWrap _ inner => Is_ErrClosedPipe inner
  | Errorf_w _ _ operand => Is_ErrClosedPipe operand
  | _ => false
  end.

Inductive result (A : Type) : Type :=
| Ok (a : A)
| Err (e : error).
Arguments Ok {A} a.
Arguments Err {A} e.

Definition is_Err {A} (r : result A) : bool :=
  match r with Ok _ => false | Err _ => true end.

(** Values a panic can carry in this program. *)
Inductive panic_value : Type :=
| IndexOutOfRange (i len : Z)
| NilDereference
| PanicBool (b : bool).

(** How a call ends. *)
Inductive outcome (A : Type) : Type :=
| Returns (a : A)
| Panics (v : panic_value)
| NoReturn.
Arguments Returns {A} a.
Arguments Panics {A} v.
Arguments NoReturn {A}.

(** [xs[i]] on a slice. *)
Definition index {A} (xs : list A) (i : nat) : outcome A :=
  match nth_error xs i with
  | Some x => Returns x
  | None => Panics (IndexOutOfRange (Z.of_nat i) (Z.of_nat (List.length xs)))
  end.

End Go.
Export Go.

(* ================================================================== *)
(** ** Effects *)

Section Monad.

(** [S] is the mutable object, [E] the type of events. *)
Context {S E : Type}.

Definition M (A : Type) : Type := S -> outcome A * S * list E.

Definition ret {A} (a : A) : M A := fun s => (Returns a, s, []).

Definition bind {A B} (m : M A) (f : A -> M B) : M B :=
  fun s =>
    let '(r, s1, t1) := m s in
    match r with
    | Returns a => let '(r2, s2, t2) := f a s1 in (r2, s2, t1 ++ t2)
    | Panics v => (Panics v, s1, t1)
    | NoReturn => (NoReturn, s1, t1)
    end.

Definition emit (e : E) : M unit := fun s => (Returns tt, s, [e]).
Definition get : M S := fun s => (Returns s, s, []).
Definition put (s : S) : M unit := fun _ => (Returns tt, s, []).
Definition panic {A} (v : panic_value) : M A := fun s => (Panics v, s, []).
Definition never {A} : M A := fun s => (NoReturn, s, []).
Definition lift_outcome {A} (o : outcome A) : M A := fun s => (o, s, []).

(** [defer cleanup(); body]: the deferred call runs when the body
    returns and when it panics (a panic of the deferred call replaces
    the pending one); it does not run if the body never returns. *)
Definition defer {A} (cleanup : M unit) (body : M A) : M A :=
  fun s =>
    let '(r, s1, t1) := body s in
    match r with
    | NoReturn => (NoReturn, s1, t1)
    | _ =>
        let '(c, s2, t2) := cleanup s1 in
        match c with
        | Returns _ => (r, s2, t1 ++ t2)
        | Panics v => (Panics v, s2, t1 ++ t2)
        | NoReturn => (NoReturn, s2, t1 ++ t2)
        end
    end.

End Monad.

Arguments M : clear implicits.

Declare Scope go_scope.
Delimit Scope go_scope with go.
Notation "x <- m ;; k" := (bind m (fun x => k))
  (at level 61, m at next level, right associativity) : go_scope.
Notation "m ;; k" := (bind m (fun _ => k))
  (at level 61, right associativity) : go_scope.
Open Scope go_scope.

(* ================================================================== *)
(** ** Package client: data model *)

Module client.

(** Modelled from the spec: [dns.Name], the structured domain name of
    package dns (not part of these sources): a sequence of labels. *)
Definition Name : Type := list string.

Definition ResolverType : Type := string.
Definition ResolverTypeUDP : ResolverType := "udp".
Definition ResolverTypeDOT : ResolverType := "dot".
Definition ResolverTypeDOH : ResolverType := "doh".

(** Field names that Go shares with a type name carry a prime. *)
Record Resolver : Type := {
  ResolverType' : ResolverType;
  ResolverAddr : string
}.

Record TunnelServer : Type := {
  Addr : Name;
  PubKey : string;
  MTU : Z;
  decodedNoisePubKey : list Z
}.

(** The third field of the Go struct, [tunnels []*Tunnel], holds pointers
    and is written by [Start]; it is kept with the state [Start] runs on
    ([StartState] below). *)
Record Outbound : Type := {
  Resolvers : list Resolver;
  TunnelServers : list TunnelServer
}.

(** *** Handles of the layers below the client

    Each is a value of another package; the client only stores it, passes
    it on and closes it.  A KCP session additionally remembers how the
    client configured it. *)
Definition TCPAddr : Type := string.
Definition UDPAddr : Type := string.
Record TCPListener : Type := { ln_id : Z }.
Record TCPConn : Type := { tcp_id : Z }.
Record UDPConn : Type := { udp_id : Z }.

(** Modelled from the spec: [NewDNSPacketConn] of package client lives in
    a file that is not part of these sources; it "wraps the bound socket
    and target address into a DNS Transport handle scoped to domain". *)
Record DNSPacketConn : Type := {
  transport : option UDPConn;
  remote : option UDPAddr;
  domain : Name
}.
Definition NewDNSPacketConn (c : option UDPConn) (a : option UDPAddr)
    (d : Name) : DNSPacketConn :=
  {| transport := c; remote := a; domain := d |}.

Record KCPSession : Type := {
  conv : Z;
  streamMode : bool;
  nodelay : Z;
  interval : Z;
  resend : Z;
  nc : Z;
  sndwnd : Z;
  rcvwnd : Z;
  mtu : Z
}.

Record NoiseChannel : Type := { noise_id : Z }.

(** The fields of [smux.Config] that the client sets after taking
    [smux.DefaultConfig()]. *)
Record smuxConfig : Type := {
  Version : Z;
  KeepAliveTimeout : Z;
  MaxStreamBuffer : Z
}.

Record SmuxSession : Type := { smux_id : Z; smux_config : smuxConfig }.
Record Stream : Type := { ID : Z }.

(** The five layers a Tunnel holds a handle of, in bring-up order. *)
Inductive Layer : Type := LResolver | LDNS | LKCP | LNoise | LSmux.

Inductive Closer : Type :=
| HResolver (c : UDPConn)
| HDNS (c : DNSPacketConn)
| HKCP (c : KCPSession)
| HNoise (c : NoiseChannel)
| HSmux (c : SmuxSession)
| HStream (s : Stream)
| HConn (c : TCPConn)
| HListener (l : TCPListener).


(** The two copy directions of a stream bridge. *)
Inductive Dir : Type := LocalToStream | StreamToLocal.

(** What a run leaves behind.  [Enter] and [Leave] bracket the call of a
    bring-up method in [Start]; they are bookkeeping of the model and
    have no counterpart in the code.  Every other event is a call the
    code makes. *)
Inductive Event : Type :=
| LogPrintf (format : string) (args : list fmtarg) (err : option error)
| Enter (l : Layer)
| Leave (l : Layer) (r : option error)
| CloseCall (h : Closer) (r : option error)
| CloseRead (c : TCPConn)
| CloseWrite (c : TCPConn)
| Accept (r : result TCPConn)
| GoHandle (c : TCPConn)
| WgDone (d : Dir)
| WgWait.

(** What the other packages answer. *)
Record Env : Type := {
  dns_ParseName : string -> result Name;
  noise_DecodeKey : string -> result (list Z);
  dnsNameCapacity : Name -> Z;
  numPadding : Z;
  turbotunnel_QueueSize : Z;
  net_ResolveTCPAddr : string -> result TCPAddr;
  net_ListenTCP : TCPAddr -> result TCPListener;
  ln_Accept : TCPListener -> nat -> result TCPConn;
  net_ResolveUDPAddr : string -> result UDPAddr;
  net_ListenUDP : result UDPConn;
  kcp_NewConn2 : option UDPAddr -> option DNSPacketConn -> result KCPSession;
  kcp_SetMtu : KCPSession -> Z -> bool;
  noise_NewClient : option KCPSession -> list Z -> result NoiseChannel;
  smux_Client : option NoiseChannel -> smuxConfig -> result SmuxSession;
  smux_OpenStream : SmuxSession -> result Stream;
  io_Copy_to_stream : Stream -> TCPConn -> option (option error);
  io_Copy_to_local : TCPConn -> Stream -> option (option error);
  close_err : Closer -> option error
}.

(* ---------------------------------------------------------------- *)
(** ** Endpoint configuration *)

Section EndpointConfig.
Variable env : Env.

Definition NewResolver (resolverType : ResolverType) (resolverAddr : string)
    : result Resolver :=
  if String.eqb resolverType ResolverTypeUDP then
    Ok {| ResolverType' := resolverType; ResolverAddr := resolverAddr |}
  else
    Err (Errorf "unsupported resolver type: %s" [AStr resolverType]).

(** The text of a name, as [%s] prints it. *)
Definition Name_String (d : Name) : string :=
  match d with
  | [] => "."
  | _ => String.concat "." d
  end.

Definition derive_mtu (d : Name) : Z :=
  Go.sub (Go.sub (Go.sub (Go.sub (dnsNameCapacity env d) 8) 1)
                 (numPadding env)) 1.

Definition NewTunnelServer (addr : string) (pubKeyString : string)
    : result TunnelServer :=
  match dns_ParseName env addr with
  | Err err => Err (Errorf_w "invalid domain %+q: %w" [AStr addr] err)
  | Ok domain =>
      match noise_DecodeKey env pubKeyString with
      | Err err => Err (Errorf_w "pubkey format error: %w" [] err)
      | Ok pubkey =>
          let mtu := derive_mtu domain in
          if mtu <? 80 then
            Err (Errorf "domain %s leaves only %d bytes for payload"
                        [AStr (Name_String domain); AInt mtu])
          else
            Ok {| Addr := domain;
                  PubKey := pubKeyString;
                  decodedNoisePubKey := pubkey;
                  MTU := mtu |}
      end
  end.

Definition NewOutbound (resolvers : list Resolver)
    (tunnelServers : list TunnelServer) : Outbound :=
  {| Resolvers := resolvers; TunnelServers := tunnelServers |}.

End EndpointConfig.


(* ---------------------------------------------------------------- *)
(** ** tunnel.go: the Tunnel and its bring-up methods *)

(** [idleTimeout = 2 * time.Minute], in nanoseconds. *)
Definition idleTimeout : Z := 2 * (60 * 1000000000).

Record Tunnel : Type := {
  Resolver' : Resolver;
  TunnelServer' : TunnelServer;
  addr : option UDPAddr;
  resolverConn : option UDPConn;
  dnsPacketConn : option DNSPacketConn;
  kcpConn : option KCPSession;
  noiseChannel : option NoiseChannel;
  smuxSession : option SmuxSession
}.

Definition set_resolverConn (c : UDPConn) (a : UDPAddr) (t : Tunnel) : Tunnel :=
  {| Resolver' := Resolver' t; TunnelServer' := TunnelServer' t;
     addr := Some a; resolverConn := Some c;
     dnsPacketConn := dnsPacketConn t; kcpConn := kcpConn t;
     noiseChannel := noiseChannel t; smuxSession := smuxSession t |}.

Definition set_dnsPacketConn (c : DNSPacketConn) (t : Tunnel) : Tunnel :=
  {| Resolver' := Resolver' t; TunnelServer' := TunnelServer' t;
     addr := addr t; resolverConn := resolverConn t;
     dnsPacketConn := Some c; kcpConn := kcpConn t;
     noiseChannel := noiseChannel t; smuxSession := smuxSession t |}.

Definition set_kcpConn (c : KCPSession) (t : Tunnel) : Tunnel :=
  {| Resolver' := Resolver' t; TunnelServer' := TunnelServer' t;
     addr := addr t; resolverConn := resolverConn t;
     dnsPacketConn := dnsPacketConn t; kcpConn := Some c;
     noiseChannel := noiseChannel t; smuxSession := smuxSession t |}.

Definition set_noiseChannel (c : NoiseChannel) (t : Tunnel) : Tunnel :=
  {| Resolver' := Resolver' t; TunnelServer' := TunnelServer' t;
     addr := addr t; resolverConn := resolverConn t;
     dnsPacketConn := dnsPacketConn t; kcpConn := kcpConn t;
     noiseChannel := Some c; smuxSession := smuxSession t |}.

Definition set_smuxSession (c : SmuxSession) (t : Tunnel) : Tunnel :=
  {| Resolver' := Resolver' t; TunnelServer' := TunnelServer' t;
     addr := addr t; resolverConn := resolverConn t;
     dnsPacketConn := dnsPacketConn t; kcpConn := kcpConn t;
     noiseChannel := noiseChannel t; smuxSession := Some c |}.

(** The setters of a KCP session the client calls. *)
Definition SetStreamMode (enable : bool) (c : KCPSession) : KCPSession :=
  {| conv := conv c; streamMode := enable; nodelay := nodelay c;
     interval := interval c; resend := resend c; nc := nc c;
     sndwnd := sndwnd c; rcvwnd := rcvwnd c; mtu := mtu c |}.

Definition SetNoDelay (nodelay' interval' resend' nc' : Z) (c : KCPSession)
    : KCPSession :=
  {| conv := conv c; streamMode := streamMode c; nodelay := nodelay';
     interval := interval'; resend := resend'; nc := nc';
     sndwnd := sndwnd c; rcvwnd := rcvwnd c; mtu := mtu c |}.

Definition SetWindowSize (sndwnd' rcvwnd' : Z) (c : KCPSession) : KCPSession :=
  {| conv := conv c; streamMode := streamMode c; nodelay := nodelay c;
     interval := interval c; resend := resend c; nc := nc c;
     sndwnd := sndwnd'; rcvwnd := rcvwnd'; mtu := mtu c |}.

Definition with_mtu (mtu' : Z) (c : KCPSession) : KCPSession :=
  {| conv := conv c; streamMode := streamMode c; nodelay := nodelay c;
     interval := interval c; resend := resend c; nc := nc c;
     sndwnd := sndwnd c; rcvwnd := rcvwnd c; mtu := mtu' |}.

Definition NewTunnel (resolver : Resolver) (tunnelServer : TunnelServer)
    : result Tunnel :=
  Ok {| Resolver' := resolver; TunnelServer' := tunnelServer;
        addr := None; resolverConn := None; dnsPacketConn := None;
        kcpConn := None; noiseChannel := None; smuxSession := None |}.

Section TunnelMethods.
Variable env : Env.

(** Methods on [*Tunnel]. *)
Definition TM (A : Type) : Type := M Tunnel Event A.

Definition log (format : string) (args : list fmtarg) : TM unit :=
  emit (LogPrintf format args None).
Definition log_err (format : string) (args : list fmtarg) (e : error)
    : TM unit :=
  emit (LogPrintf format args (Some e)).

(** [t.kcpConn.GetConv()]: dereferences the session. *)
Definition GetConv : TM Z :=
  t <- get ;;
  match kcpConn t with
  | Some c => ret (conv c)
  | None => panic NilDereference
  end.

(** [turbotunnel.QueueSize/2]: a constant expression, evaluated
    exactly; division of integer constants truncates toward zero. *)
Definition half_QueueSize : Z := Z.quot (turbotunnel_QueueSize env) 2.

(** [_ = h.Close()] on a handle known to be present. *)
Definition close (h : Closer) : TM unit :=
  emit (CloseCall h (close_err env h)).

Definition InitiateResolverConnection : TM (option error) :=
  t <- get ;;
  if String.eqb (ResolverType' (Resolver' t)) ResolverTypeUDP then
    match net_ResolveUDPAddr env (ResolverAddr (Resolver' t)) with
    | Err err => ret (Some err)
    | Ok addr' =>
        match net_ListenUDP env with
        | Err err => ret (Some err)
        | Ok conn =>
            put (set_resolverConn conn addr' t) ;;
            ret None
        end
    end
  else
    ret (Some (Errorf "unsupported resolver type: %s"
                      [AStr (ResolverType' (Resolver' t))])).

Definition InitiateDNSPacketConn (domain : Name) : TM (option error) :=
  t <- get ;;
  if String.eqb (ResolverType' (Resolver' t)) ResolverTypeUDP then
    put (set_dnsPacketConn
           (NewDNSPacketConn (resolverConn t) (addr t) domain) t) ;;
    ret None
  else
    ret (Some (Errorf "unsupported resolver type: %s"
                      [AStr (ResolverType' (Resolver' t))])).

Definition InitiateKCPConn (mtu : Z) : TM (option error) :=
  t <- get ;;
  match kcp_NewConn2 env (addr t) (dnsPacketConn t) with
  | Err err => ret (Some (Errorf_v "opening KCP conn: %v" [] err))
  | Ok conn =>
      log "begin session %08x" [AInt (conv conn)] ;;
      let conn := SetStreamMode true conn in
      let conn := SetNoDelay 0 0 0 1 conn in
      let conn :=
        SetWindowSize half_QueueSize half_QueueSize conn in
      let rc := kcp_SetMtu env conn mtu in
      if negb rc then panic (PanicBool rc)
      else
        let conn := with_mtu mtu conn in
        put (set_kcpConn conn t) ;;
        ret None
  end.

Definition InitiateNoiseChannel : TM (option error) :=
  t <- get ;;
  match noise_NewClient env (kcpConn t)
          (decodedNoisePubKey (TunnelServer' t)) with
  | Err err => ret (Some (Errorf_v "initiating Noise channel: %v" [] err))
  | Ok rw =>
      c <- GetConv ;;
      log "Noise channel established for session %08x" [AInt c] ;;
      put (set_noiseChannel rw t) ;;
      ret None
  end.

Definition InitiateSmuxSession : TM (option error) :=
  t <- get ;;
  let smuxConfig :=
    {| Version := 2;
       KeepAliveTimeout := idleTimeout;
       MaxStreamBuffer := 1 * 1024 * 1024 |} in
  match smux_Client env (noiseChannel t) smuxConfig with
  | Err err => ret (Some (Errorf_v "opening smux session: %v" [] err))
  | Ok sess =>
      put (set_smuxSession sess t) ;;
      c <- GetConv ;;
      log "smux session established for session %08x" [AInt c] ;;
      ret None
  end.

(** [t.smuxSession.OpenStream()]: dereferences the session. *)
Definition smuxSession_OpenStream : TM (result Stream) :=
  t <- get ;;
  match smuxSession t with
  | Some sess => ret (smux_OpenStream env sess)
  | None => panic NilDereference
  end.

Definition OpenStream : TM (result Stream) :=
  r <- smuxSession_OpenStream ;;
  match r with
  | Err err =>
      c <- GetConv ;;
      ret (Err (Errorf_v "session %08x opening stream: %v" [AInt c] err))
  | Ok stream =>
      c <- GetConv ;;
      log "begin stream %08x:%d" [AInt c; AInt (ID stream)] ;;
      ret (Ok stream)
  end.

(** *** Handle: the stream bridge *)

(** What follows [io.Copy] in both goroutines: [io.EOF] becomes [nil],
    and what is left is logged unless it is a closed pipe. *)
Definition after_copy (format : string) (stream : Stream)
    (err : option error) : TM unit :=
  let err :=
    match err with
    | Some e => if is_EOF e then None else Some e
    | None => None
    end in
  match err with
  | Some e =>
      if negb (Is_ErrClosedPipe e) then
        c <- GetConv ;;
        log_err format [AInt c; AInt (ID stream)] e
      else ret tt
  | None => ret tt
  end.

(** First goroutine: [io.Copy(stream, lconn)]. *)
Definition copy_local_to_stream (stream : Stream) (lconn : TCPConn)
    : TM unit :=
  defer (emit (WgDone LocalToStream))
    (match io_Copy_to_stream env stream lconn with
     | None => never
     | Some err =>
         after_copy "stream %08x:%d copy stream←local: %v" stream err ;;
         emit (CloseRead lconn) ;;
         close (HStream stream)
     end).

(** Second goroutine: [io.Copy(lconn, stream)]. *)
Definition copy_stream_to_local (stream : Stream) (lconn : TCPConn)
    : TM unit :=
  defer (emit (WgDone StreamToLocal))
    (match io_Copy_to_local env lconn stream with
     | None => never
     | Some err =>
         after_copy "stream %08x:%d copy local←stream: %v" stream err ;;
         emit (CloseWrite lconn)
     end).

(** The order in which the scheduler lets two goroutines take their
    steps: [true] lets the first one step, [false] the second; a
    goroutine that has nothing left to do leaves the other to run. *)
Fixpoint interleave {A} (sched : list bool) (l1 l2 : list A) : list A :=
  match sched with
  | [] => l1 ++ l2
  | true :: sched' =>
      match l1 with
      | x :: l1' => x :: interleave sched' l1' l2
      | [] => l2
      end
  | false :: sched' =>
      match l2 with
      | y :: l2' => y :: interleave sched' l1 l2'
      | [] => l1
      end
  end.

(** [wg.Add(2); go g1(); go g2(); wg.Wait()].  The goroutines read the
    Tunnel and never write it.  [wg.Wait] returns once both have
    finished; if one never finishes, neither does the wait. *)
Definition go_both (sched : list bool) (g1 g2 : TM unit) : TM unit :=
  fun t =>
    let '(r1, _, e1) := g1 t in
    let '(r2, _, e2) := g2 t in
    let ev := interleave sched e1 e2 in
    match r1, r2 with
    | Panics v, _ => (Panics v, t, ev)
    | _, Panics v => (Panics v, t, ev)
    | Returns _, Returns _ => (Returns tt, t, ev ++ [WgWait])
    | _, _ => (NoReturn, t, ev)
    end.

Definition Handle (sched : list bool) (lconn : TCPConn)
    : TM (option error) :=
  r <- smuxSession_OpenStream ;;
  match r with
  | Err err =>
      c <- GetConv ;;
      ret (Some (Errorf_w "session %08x opening stream: %w" [AInt c] err))
  | Ok stream =>
      let err : option error := None in
      defer (c <- GetConv ;;
             log "end stream %08x:%d" [AInt c; AInt (ID stream)] ;;
             close (HStream stream))
        (c <- GetConv ;;
         log "begin stream %08x:%d" [AInt c; AInt (ID stream)] ;;
         go_both sched (copy_local_to_stream stream lconn)
                       (copy_stream_to_local stream lconn) ;;
         ret err)
  end.

(** *** Close *)

Definition Close : TM (option error) :=
  t <- get ;;
  match resolverConn t with
  | Some c => close (HResolver c)
  | None => ret tt
  end ;;
  match dnsPacketConn t with
  | Some c => close (HDNS c)
  | None => ret tt
  end ;;
  match kcpConn t with
  | Some c =>
      log "end session %08x" [AInt (conv c)] ;;
      close (HKCP c)
  | None => ret tt
  end ;;
  match noiseChannel t with
  | Some c => close (HNoise c)
  | None => ret tt
  end ;;
  match smuxSession t with
  | Some c => close (HSmux c)
  | None => ret tt
  end ;;
  ret None.

End TunnelMethods.

(* ---------------------------------------------------------------- *)
(** ** Outbound.Start *)

(** [Start] allocates one Tunnel.  [cell] is where it lives and [ptr] is
    the pointer to it; [tunnels] is the field [o.tunnels]. *)
Inductive TunnelPtr : Type := ptr.

Record StartState : Type := {
  tunnels : list TunnelPtr;
  cell : option Tunnel
}.

Definition initial : StartState := {| tunnels := []; cell := None |}.

Section OutboundStart.
Variable env : Env.

Definition SM (A : Type) : Type := M StartState Event A.

(** [tunnel := &Tunnel{...}] *)
Definition alloc (t : Tunnel) : SM unit :=
  s <- get ;; put {| tunnels := tunnels s; cell := Some t |}.

Definition set_tunnels (ps : list TunnelPtr) : SM unit :=
  s <- get ;; put {| tunnels := ps; cell := cell s |}.

(** A method call through the pointer. *)
Definition on_tunnel {A} (m : TM A) : SM A :=
  fun s =>
    match cell s with
    | None => (Panics NilDereference, s, [])
    | Some t =>
        let '(r, t', ev) := m t in
        (r, {| tunnels := tunnels s; cell := Some t' |}, ev)
    end.

(** One bring-up call of [Start], bracketed in the trace. *)
Definition stage (l : Layer) (m : TM (option error)) : SM (option error) :=
  emit (Enter l) ;;
  r <- on_tunnel m ;;
  emit (Leave l r) ;;
  ret r.

(** [if err := ...; err != nil { return fmt.Errorf(format, err) }] *)
Definition check (err : option error) (format : string)
    (k : SM (option error)) : SM (option error) :=
  match err with
  | Some e => ret (Some (Errorf_w format [] e))
  | None => k
  end.

(** The goroutine started for an accepted connection. *)
Definition handle_conn (sched : list bool) (local : TCPConn) : TM unit :=
  defer (close env (HConn local))
    (err <- Handle env sched local ;;
     match err with
     | Some e => log_err "handle: %v" [] e
     | None => ret tt
     end).

(** The [for] loop of [Start], followed for [n] calls of [Accept] that
    return; [i] counts the calls made so far.  The loop has no exit. *)
Fixpoint accept_loop (ln : TCPListener) (i : nat) (n : nat)
    : SM (option error) :=
  match n with
  | O => never
  | S n' =>
      let r := ln_Accept env ln i in
      emit (Accept r) ;;
      match r with
      | Err _ => accept_loop ln (S i) n'
      | Ok local => emit (GoHandle local) ;; accept_loop ln (S i) n'
      end
  end.

Definition Start (o : Outbound) (bind : string) (n : nat)
    : SM (option error) :=
  match net_ResolveTCPAddr env bind with
  | Err err => ret (Some (Errorf_w "invalid local address: %w" [] err))
  | Ok localAddr =>
  match net_ListenTCP env localAddr with
  | Err err => ret (Some (Errorf_v "opening local listener: %v" [] err))
  | Ok ln =>
  defer (emit (CloseCall (HListener ln) (close_err env (HListener ln))))
    (resolver <- lift_outcome (index (Resolvers o) 0) ;;
     tunnelServer <- lift_outcome (index (TunnelServers o) 0) ;;
     match NewTunnel resolver tunnelServer with
     | Err err => ret (Some (Errorf_w "failed to create tunnel: %w" [] err))
     | Ok tunnel =>
     alloc tunnel ;;
     defer (on_tunnel (Close env) ;; ret tt)
       (set_tunnels [ptr] ;;
        err <- stage LResolver (InitiateResolverConnection env) ;;
        check err "failed to initiate connection to resolver: %w" (
        err <- stage LDNS (InitiateDNSPacketConn (Addr tunnelServer)) ;;
        check err "failed to initiate DNS packet connection: %w" (
        emit (LogPrintf "effective MTU %d" [AInt (MTU tunnelServer)] None) ;;
        err <- stage LKCP (InitiateKCPConn env (MTU tunnelServer)) ;;
        check err "failed to initiate KCP connection: %w" (
        err <- stage LNoise (InitiateNoiseChannel env) ;;
        check err "failed to initiate Noise channel: %w" (
        err <- stage LSmux (InitiateSmuxSession env) ;;
        check err "failed to initiate smux session: %w" (
        accept_loop ln 0 n))))))
     end)
  end
  end.

End OutboundStart.

End client.

(* ================================================================== *)
(** ** cmd/dnstt-client/main.go *)

Module cmd.
Import client.

(** How the process ends. *)
Inductive ending : Type :=
| Exit_usage
| Exit_invalid_udp (err : error)
| Exit_invalid_tunnel_server (err : error)
| Fatal (err : error)
| Done.

Section Main.
Variable env : Env.

(** [pubkeyString] and [udpAddr] are the values of the flags, [args]
    the positional arguments left by [flag.Parse]. *)
Definition main (pubkeyString udpAddr : string) (args : list string)
    (n : nat) : SM ending :=
  match args with
  | [arg0; arg1] =>
      let resolvers : result (list Resolver) :=
        if negb (String.eqb udpAddr "") then
          match NewResolver ResolverTypeUDP udpAddr with
          | Err err => Err err
          | Ok resolver => Ok ([] ++ [resolver])
          end
        else Ok [] in
      match resolvers with
      | Err err => ret (Exit_invalid_udp err)
      | Ok resolvers =>
          match NewTunnelServer env arg0 pubkeyString with
          | Err err => ret (Exit_invalid_tunnel_server err)
          | Ok tServer =>
              let tunnelServers := [tServer] in
              let ob := NewOutbound resolvers tunnelServers in
              err <- Start env ob arg1 n ;;
              match err with
              | Some err => ret (Fatal err)
              | None => ret Done
              end
          end
      end
  | _ => ret Exit_usage
  end.

End Main.

End cmd.

(* ================================================================== *)
(** ** A concrete environment

    Substitute implementations of the external capabilities, in the sense
    of the specification's testable properties; the definitions above can
    be run on them.  The theorems below hold for every environment; this
    one serves where a concrete run is shown. *)

Module Double.
Import client.

Fixpoint split_dots (acc : string) (s : string) : list string :=
  match s with
  | EmptyString => [acc]
  | String c s' =>
      if Ascii.eqb c "."%char then acc :: split_dots "" s'
      else split_dots (acc ++ String c "")%string s'
  end.

Definition trim_dot (s : string) : string :=
  let n := String.length s in
  if String.eqb (substring (n - 1) 1 s) "." then substring 0 (n - 1) s else s.

Definition label_ok (l : string) : bool :=
  negb (String.eqb l "") && (String.length l <=? 63)%nat.

Definition encoded_length (d : Name) : nat :=
  fold_right (fun l n => (String.length l + 1 + n)%nat) 1%nat d.

(** Modelled from the spec: [dns.ParseName] "parses domainSuffix into a
    structured domain name; fails with InvalidDomain on malformed input".
    Malformed here: an empty label, a label over 63 octets, a name over
    255 octets. *)
Definition ParseName (s : string) : result Name :=
  let labels := if String.eqb s "." then [] else split_dots "" (trim_dot s) in
  if negb (forallb label_ok labels) then Err (Foreign "invalid label")
  else if (255 <? encoded_length labels)%nat then Err (Foreign "name too long")
  else Ok labels.

Definition hex_digit (c : ascii) : option Z :=
  let n := Z.of_nat (nat_of_ascii c) in
  if (48 <=? n) && (n <=? 57) then Some (n - 48)
  else if (97 <=? n) && (n <=? 102) then Some (n - 87)
  else if (65 <=? n) && (n <=? 70) then Some (n - 55)
  else None.

Fixpoint hex_decode (s : string) : option (list Z) :=
  match s with
  | EmptyString => Some []
  | String _ EmptyString => None
  | String a (String b s') =>
      match hex_digit a, hex_digit b, hex_decode s' with
      | Some x, Some y, Some r => Some (16 * x + y :: r)
      | _, _, _ => None
      end
  end.

Definition KeyLen : nat := 32.

(** Modelled from the spec: [noise.DecodeKey] "fails on wrong length or
    non-hex content"; a valid string of [2 * KeyLen] hex digits decodes
    to [KeyLen] bytes. *)
Definition DecodeKey (s : string) : result (list Z) :=
  match hex_decode s with
  | None => Err (Foreign "encoding/hex: invalid input")
  | Some key =>
      if Nat.eqb (List.length key) KeyLen then Ok key
      else Err (Errorf "length is %d, expected %d"
                  [AInt (Z.of_nat (List.length key)); AInt (Z.of_nat KeyLen)])
  end.

(** Modelled from the spec: [NameCapacity], "the number of payload bytes
    encodable under the DNS Transport's naming-format limits for that
    suffix".  The spec fixes no formula; this one counts what is left of
    255 octets in 63-octet labels of base32 text. *)
Definition NameCapacity (d : Name) : Z :=
  let c := 255 - Z.of_nat (encoded_length d) in
  let c := Z.quot (c * 63) 64 in
  Z.quot (c * 5) 8.

Definition fresh_session : KCPSession :=
  {| conv := 305419896; streamMode := false; nodelay := 0; interval := 100;
     resend := 0; nc := 0; sndwnd := 32; rcvwnd := 32; mtu := 1400 |}.

Definition nonempty (s : string) : result string :=
  if String.eqb s "" then Err (Foreign "missing address") else Ok s.

(** The environment.  Its parameters are the answers a run needs to
    vary: what [Accept] returns, what the two copies return, and what
    closing a handle returns. *)
Definition env (accept : nat -> result TCPConn)
    (copy_up copy_down : option (option error))
    (closing : Closer -> option error) : Env :=
  {| dns_ParseName := ParseName;
     noise_DecodeKey := DecodeKey;
     dnsNameCapacity := NameCapacity;
     numPadding := 3;
     turbotunnel_QueueSize := 128;
     net_ResolveTCPAddr := nonempty;
     net_ListenTCP := fun _ => Ok {| ln_id := 1 |};
     ln_Accept := fun _ => accept;
     net_ResolveUDPAddr := nonempty;
     net_ListenUDP := Ok {| udp_id := 2 |};
     kcp_NewConn2 := fun _ _ => Ok fresh_session;
     kcp_SetMtu := fun _ m => m <=? 1500;
     noise_NewClient := fun _ _ => Ok {| noise_id := 3 |};
     smux_Client := fun _ cfg => Ok {| smux_id := 4; smux_config := cfg |};
     smux_OpenStream := fun _ => Ok {| ID := 1 |};
     io_Copy_to_stream := fun _ _ => copy_up;
     io_Copy_to_local := fun _ _ => copy_down;
     close_err := closing |}.

Definition accept_all (i : nat) : result TCPConn :=
  Ok {| tcp_id := Z.of_nat i |}.

(** Every second [Accept] fails. *)
Definition accept_flaky (i : nat) : result TCPConn :=
  if Nat.even i then Err (Foreign "accept: too many open files")
  else Ok {| tcp_id := Z.of_nat i |}.

Definition quiet : Env :=
  env accept_all (Some None) (Some None) (fun _ => None).

Definition key64 : string :=
  "000102030405060708090a0b0c0d0e0f101112131415161718191a1b1c1d1e1f".

Definition server : TunnelServer :=
  {| Addr := ["t"; "example"; "com"]; PubKey := key64; MTU := 134;
     decodedNoisePubKey := [] |}.

Definition udp_resolver : Resolver :=
  {| ResolverType' := "udp"; ResolverAddr := "8.8.8.8:53" |}.

(** A Tunnel before bring-up. *)
Definition idle : Tunnel :=
  {| Resolver' := udp_resolver; TunnelServer' := server;
     addr := None; resolverConn := None; dnsPacketConn := None;
     kcpConn := None; noiseChannel := None; smuxSession := None |}.

(** A Tunnel after the first two stages of bring-up. *)
Definition half_up : Tunnel :=
  {| Resolver' := udp_resolver; TunnelServer' := server;
     addr := Some "8.8.8.8:53"; resolverConn := Some {| udp_id := 2 |};
     dnsPacketConn :=
       Some (NewDNSPacketConn (Some {| udp_id := 2 |}) (Some "8.8.8.8:53")
               ["t"; "example"; "com"]);
     kcpConn := None; noiseChannel := None; smuxSession := None |}.

(** A Tunnel after bring-up. *)
Definition ready : Tunnel :=
  {| Resolver' := udp_resolver; TunnelServer' := server;
     addr := Some "8.8.8.8:53"; resolverConn := Some {| udp_id := 2 |};
     dnsPacketConn :=
       Some (NewDNSPacketConn (Some {| udp_id := 2 |}) (Some "8.8.8.8:53")
               ["t"; "example"; "com"]);
     kcpConn := Some fresh_session;
     noiseChannel := Some {| noise_id := 3 |};
     smuxSession :=
       Some {| smux_id := 4;
               smux_config := {| Version := 2; KeepAliveTimeout := idleTimeout;
                                 MaxStreamBuffer := 1048576 |} |} |}.



Definition flaky : Env :=
  env accept_flaky (Some None) (Some None) (fun _ => None).

Definition handshake_failed : error := Foreign "noise: handshake failed".

(** The Noise handshake fails; everything else is as in [quiet]. *)
Definition no_handshake : Env :=
  {| dns_ParseName := ParseName;
     noise_DecodeKey := DecodeKey;
     dnsNameCapacity := NameCapacity;
     numPadding := 3;
     turbotunnel_QueueSize := 128;
     net_ResolveTCPAddr := nonempty;
     net_ListenTCP := fun _ => Ok {| ln_id := 1 |};
     ln_Accept := fun _ => accept_all;
     net_ResolveUDPAddr := nonempty;
     net_ListenUDP := Ok {| udp_id := 2 |};
     kcp_NewConn2 := fun _ _ => Ok fresh_session;
     kcp_SetMtu := fun _ m => m <=? 1500;
     noise_NewClient := fun _ _ => Err handshake_failed;
     smux_Client := fun _ cfg => Ok {| smux_id := 4; smux_config := cfg |};
     smux_OpenStream := fun _ => Ok {| ID := 1 |};
     io_Copy_to_stream := fun _ _ => Some None;
     io_Copy_to_local := fun _ _ => Some None;
     close_err := fun _ => None |}.

Definition outbound : Outbound :=
  NewOutbound [udp_resolver] [server].

(** What [main] builds when the flag [-udp] is not given. *)
Definition outbound_no_resolver : Outbound :=
  NewOutbound [] [server].



End Double.

(* ================================================================== *)
(** ** Vocabulary of the properties *)

Module Spec.
Import client.

(** *** Traces *)

(** [a] occurs in the trace, and [b] occurs later. *)
Definition before (a b : Event) (tr : list Event) : Prop :=
  exists l1 l2 l3, tr = l1 ++ a :: l2 ++ b :: l3.

(** [l] is [l1] and [l2] shuffled together, each in its own order. *)
Inductive Merge {A : Type} : list A -> list A -> list A -> Prop :=
| Merge_nil : Merge [] [] []
| Merge_left x l1 l2 l : Merge l1 l2 l -> Merge (x :: l1) l2 (x :: l)
| Merge_right y l1 l2 l : Merge l1 l2 l -> Merge l1 (y :: l2) (y :: l).


Definition is_log (ev : Event) : bool :=
  match ev with LogPrintf _ _ _ => true | _ => false end.

Definition is_close (ev : Event) : bool :=
  match ev with CloseCall _ _ => true | _ => false end.


(** *** Teardown *)

Definition bring_up_order : list Layer :=
  [LResolver; LDNS; LKCP; LNoise; LSmux].


Definition present (t : Tunnel) (l : Layer) : bool :=
  match l with
  | LResolver => match resolverConn t with Some _ => true | None => false end
  | LDNS => match dnsPacketConn t with Some _ => true | None => false end
  | LKCP => match kcpConn t with Some _ => true | None => false end
  | LNoise => match noiseChannel t with Some _ => true | None => false end
  | LSmux => match smuxSession t with Some _ => true | None => false end
  end.

(** The layers a Tunnel holds a handle of, in bring-up order. *)
Definition present_layers (t : Tunnel) : list Layer :=
  filter (present t) bring_up_order.


(** *** Bring-up *)





(** *** The KCP session *)

(** The session as [InitiateKCPConn] has set it up by the time it asks
    for the transport unit size. *)
Definition configured (env : Env) (conn : KCPSession) : KCPSession :=
  SetWindowSize (half_QueueSize env) (half_QueueSize env)
    (SetNoDelay 0 0 0 1 (SetStreamMode true conn)).




(** *** Accept loop *)

(** What [n] calls of [Accept], the first being call number [i], leave
    in the trace: the call, and the goroutine started if it succeeded. *)
Fixpoint accept_events (env : Env) (ln : TCPListener) (i n : nat)
    : list Event :=
  match n with
  | O => []
  | S n' =>
      match ln_Accept env ln i with
      | Err e => Accept (Err e) :: accept_events env ln (S i) n'
      | Ok c => Accept (Ok c) :: GoHandle c :: accept_events env ln (S i) n'
      end
  end.

(** *** Stream bridge *)

(** The log line a copy error leaves, if any. *)
Definition copy_log (format : string) (c : Z) (stream : Stream)
    (err : option error) : list Event :=
  match err with
  | None => []
  | Some e =>
      if is_EOF e || Is_ErrClosedPipe e then []
      else [LogPrintf format [AInt c; AInt (ID stream)] (Some e)]
  end.

(** *** Further vocabulary *)

(** The closes of a listener along a trace. *)
Definition listener_closes (tr : list Event) : list Event :=
  filter (fun ev =>
            match ev with CloseCall (HListener _) _ => true | _ => false end)
         tr.

(** The closes of an accepted connection along a trace. *)
Definition conn_closes (tr : list Event) : list Event :=
  filter (fun ev =>
            match ev with CloseCall (HConn _) _ => true | _ => false end)
         tr.

(** The connections for which a goroutine is started along a trace. *)
Fixpoint started (tr : list Event) : list TCPConn :=
  match tr with
  | [] => []
  | GoHandle c :: tr' => c :: started tr'
  | _ :: tr' => started tr'
  end.




(** *** Stages and the capabilities they consult *)






End Spec.

(* ================================================================== *)
(** * Properties *)

Import client Spec.

(** ** Go integers *)

Lemma wrap_in_int (z : Z) : Go.in_int z -> Go.wrap z = z.
Proof.
  unfold Go.in_int, Go.int_min, Go.int_max, Go.wrap. intros H.
  rewrite Z.mod_small; lia.
Qed.

Lemma wrap_sub_wrap (a b : Z) : Go.wrap (Go.wrap a - b) = Go.wrap (a - b).
Proof.
  unfold Go.wrap.
  replace ((a + 2 ^ 63) mod 2 ^ 64 - 2 ^ 63 - b + 2 ^ 63)
    with ((a + 2 ^ 63) mod 2 ^ 64 - b) by lia.
  rewrite Zminus_mod_idemp_l.
  replace (a + 2 ^ 63 - b) with (a - b + 2 ^ 63) by lia.
  reflexivity.
Qed.

(** ** The derived MTU *)

Module MTU.

Section Derivation.
Variable env : Env.

(** The four subtractions of [NewTunnelServer] amount to one. *)
Lemma derive_mtu_wrap (d : Name) :
  derive_mtu env d
  = Go.wrap (dnsNameCapacity env d - 8 - 1 - numPadding env - 1).
Proof.
  unfold derive_mtu, Go.sub.
  rewrite (wrap_sub_wrap (dnsNameCapacity env d - 8) 1).
  rewrite (wrap_sub_wrap (dnsNameCapacity env d - 8 - 1) (numPadding env)).
  apply wrap_sub_wrap.
Qed.

Lemma NewTunnelServer_decoded (addr pubKeyString : string) (d : Name)
    (pubkey : list Z) :
  dns_ParseName env addr = Ok d ->
  noise_DecodeKey env pubKeyString = Ok pubkey ->
  NewTunnelServer env addr pubKeyString
  = if derive_mtu env d <? 80 then
      Err (Errorf "domain %s leaves only %d bytes for payload"
             [AStr (Name_String d); AInt (derive_mtu env d)])
    else
      Ok {| Addr := d; PubKey := pubKeyString;
            decodedNoisePubKey := pubkey; MTU := derive_mtu env d |}.
Proof.
  intros Hd Hk. unfold NewTunnelServer. now rewrite Hd, Hk.
Qed.

End Derivation.

(** C3.  For every address that parses to a domain
    of name capacity [C] and every public key that decodes,
    [NewTunnelServer] derives the MTU [C - 8 - 1 - numPadding - 1] in
    Go's [int] (exactly that integer whenever it fits 64 bits), fails
    exactly when the derived value is below 80, and on success stores
    the derived value in the [MTU] field. *)
Theorem NewTunnelServer_mtu (env : Env) (addr pubKeyString : string)
    (d : Name) (pubkey : list Z) :
  dns_ParseName env addr = Ok d ->
  noise_DecodeKey env pubKeyString = Ok pubkey ->
  let C := dnsNameCapacity env d in
  let m := Go.wrap (C - 8 - 1 - numPadding env - 1) in
  (Go.in_int (C - 8 - 1 - numPadding env - 1) ->
   m = C - 8 - 1 - numPadding env - 1) /\
  (is_Err (NewTunnelServer env addr pubKeyString) = true <-> m < 80) /\
  (forall ts, NewTunnelServer env addr pubKeyString = Ok ts ->
              MTU ts = m /\ Addr ts = d /\ 80 <= MTU ts).
Proof.
  intros Hd Hk C m.
  rewrite (NewTunnelServer_decoded env addr pubKeyString d pubkey Hd Hk).
  rewrite derive_mtu_wrap. fold C. fold m.
  split; [apply wrap_in_int|].
  destruct (Z.ltb_spec m 80) as [Hlt | Hge]; simpl.
  - split; [tauto | intros ts H; discriminate].
  - split; [split; [discriminate | intros; exfalso; lia]|].
    intros ts H. injection H as <-. simpl. auto.
Qed.

Lemma NewTunnelServer_mtu_witness :
  let env := Double.quiet in
  let d := ["t"; "example"; "com"] in
  let m := Go.wrap (dnsNameCapacity env d - 8 - 1 - numPadding env - 1) in
  m = 134 /\
  (is_Err (NewTunnelServer env "t.example.com" Double.key64) = true
   <-> m < 80) /\
  (forall ts, NewTunnelServer env "t.example.com" Double.key64 = Ok ts ->
              MTU ts = m /\ Addr ts = d /\ 80 <= MTU ts).
Proof.
  intros env d m. split; [reflexivity|].
  apply (NewTunnelServer_mtu env "t.example.com" Double.key64 d
           [0; 1; 2; 3; 4; 5; 6; 7; 8; 9; 10; 11; 12; 13; 14; 15; 16; 17;
            18; 19; 20; 21; 22; 23; 24; 25; 26; 27; 28; 29; 30; 31]);
    vm_compute; reflexivity.
Defined.

End MTU.

(** ** The KCP session *)

Module KCP.

Ltac run_kcp H :=
  unfold InitiateKCPConn, bind, get, put, log, emit, ret, panic;
  rewrite H; cbn.

(** C9.  When the transport opens a session and accepts the transport
    unit size [m], [InitiateKCPConn m] returns nil and stores a session
    with stream mode on, nodelay parameters (0, 0, 0, 1), both windows
    equal to [QueueSize/2], and unit size [m]. *)
Theorem InitiateKCPConn_configures (env : Env) (m : Z) (t : Tunnel)
    (conn : KCPSession) :
  kcp_NewConn2 env (addr t) (dnsPacketConn t) = Ok conn ->
  kcp_SetMtu env (configured env conn) m = true ->
  exists c t' tr,
    InitiateKCPConn env m t = (Returns None, t', tr) /\
    kcpConn t' = Some c /\
    streamMode c = true /\
    (nodelay c, interval c, resend c, nc c) = (0, 0, 0, 1) /\
    sndwnd c = Z.quot (turbotunnel_QueueSize env) 2 /\
    rcvwnd c = Z.quot (turbotunnel_QueueSize env) 2 /\
    mtu c = m /\
    conv c = conv conn.
Proof.
  intros Hopen Hmtu.
  exists (with_mtu m (configured env conn)),
         (set_kcpConn (with_mtu m (configured env conn)) t),
         [LogPrintf "begin session %08x" [AInt (conv conn)] None].
  split.
  - run_kcp Hopen. unfold configured in Hmtu. rewrite Hmtu. reflexivity.
  - repeat split; reflexivity.
Qed.

Lemma InitiateKCPConn_configures_witness :
  exists c t' tr,
    InitiateKCPConn Double.quiet 134 Double.half_up = (Returns None, t', tr) /\
    kcpConn t' = Some c /\
    streamMode c = true /\
    (nodelay c, interval c, resend c, nc c) = (0, 0, 0, 1) /\
    sndwnd c = Z.quot (turbotunnel_QueueSize Double.quiet) 2 /\
    rcvwnd c = Z.quot (turbotunnel_QueueSize Double.quiet) 2 /\
    mtu c = 134 /\
    conv c = conv Double.fresh_session.
Proof.
  apply (InitiateKCPConn_configures Double.quiet 134 Double.half_up
           Double.fresh_session); reflexivity.
Defined.

(** C2, as the code has it.  When the transport opens a session and
    rejects the transport unit size [m], [InitiateKCPConn m] panics with
    the rejection; it does not return, and the Tunnel is left without a
    KCP session. *)
Theorem InitiateKCPConn_rejected_mtu_panics (env : Env) (m : Z)
    (t : Tunnel) (conn : KCPSession) :
  kcp_NewConn2 env (addr t) (dnsPacketConn t) = Ok conn ->
  kcp_SetMtu env (configured env conn) m = false ->
  InitiateKCPConn env m t
  = (Panics (PanicBool false), t,
     [LogPrintf "begin session %08x" [AInt (conv conn)] None]).
Proof.
  intros Hopen Hmtu. run_kcp Hopen.
  unfold configured in Hmtu. rewrite Hmtu. reflexivity.
Qed.

Lemma InitiateKCPConn_rejected_mtu_panics_witness :
  InitiateKCPConn Double.quiet 2000 Double.half_up
  = (Panics (PanicBool false), Double.half_up,
     [LogPrintf "begin session %08x" [AInt 305419896] None]).
Proof.
  apply (InitiateKCPConn_rejected_mtu_panics Double.quiet 2000
           Double.half_up Double.fresh_session); reflexivity.
Defined.

(** C2 as stated fails: a rejected unit size is not answered by an
    error returned to the caller. *)
Lemma InitiateKCPConn_rejected_mtu_no_error :
  let env := Double.quiet in
  let r := fst (fst (InitiateKCPConn env 2000 Double.half_up)) in
  kcp_NewConn2 env (addr Double.half_up) (dnsPacketConn Double.half_up)
  = Ok Double.fresh_session /\
  kcp_SetMtu env (configured env Double.fresh_session) 2000 = false /\
  r = Panics (PanicBool false) /\
  ~ (exists e, r = Returns (Some e)).
Proof.
  intros env r. repeat split.
  intros [e H]. vm_compute in H. discriminate.
Qed.

End KCP.

(** ** Teardown *)

Module Teardown.








End Teardown.

(** ** Bring-up *)

Module BringUp.

(** The accept loop, followed for [n] calls of [Accept]: it has not
    returned, and has left the events of these calls. *)
Lemma accept_loop_run (env : Env) (ln : TCPListener) (n i : nat)
    (s : StartState) :
  accept_loop env ln i n s = (NoReturn, s, accept_events env ln i n).
Proof.
  revert i. induction n as [|n IH]; intros i; [reflexivity|].
  simpl. unfold bind at 1. unfold emit at 1.
  destruct (ln_Accept env ln i) as [c|e].
  - unfold bind at 1. unfold emit at 1. now rewrite IH.
  - now rewrite IH.
Qed.







Ltac env_step :=
  match goal with
  | |- context [String.eqb ?a ?b] => destruct (String.eqb a b) eqn:?
  | |- context [net_ResolveUDPAddr ?e ?a] =>
      destruct (net_ResolveUDPAddr e a) eqn:?
  | |- context [net_ListenUDP ?e] => destruct (net_ListenUDP e) eqn:?
  | |- context [kcp_NewConn2 ?e ?a ?b] =>
      destruct (kcp_NewConn2 e a b) eqn:?
  | |- context [kcp_SetMtu ?e ?a ?b] => destruct (kcp_SetMtu e a b) eqn:?
  | |- context [noise_NewClient ?e ?a ?b] =>
      destruct (noise_NewClient e a b) eqn:?
  | |- context [smux_Client ?e ?a ?b] => destruct (smux_Client e a b) eqn:?
  end.

Ltac norm :=
  cbv beta iota zeta delta
    [defer bind lift_outcome index nth_error alloc set_tunnels stage
     on_tunnel check get put emit ret panic log close
     InitiateResolverConnection InitiateDNSPacketConn InitiateKCPConn
     InitiateNoiseChannel InitiateSmuxSession GetConv Close NewTunnel
     initial cell tunnels app negb Resolvers TunnelServers
     set_resolverConn set_dnsPacketConn set_kcpConn set_noiseChannel
     set_smuxSession Resolver' TunnelServer' addr resolverConn
     dnsPacketConn kcpConn noiseChannel smuxSession].












(** C1 does not hold of the code.  Once the listener is open, [Start]
    with an empty list of resolvers or of tunnel servers panics on the
    index expression; what runs is the deferred close of the
    listener. *)
Theorem Start_empty_endpoints_panics (env : Env) (o : Outbound)
    (laddr : string) (n : nat) (localAddr : TCPAddr) (ln : TCPListener) :
  net_ResolveTCPAddr env laddr = Ok localAddr ->
  net_ListenTCP env localAddr = Ok ln ->
  Resolvers o = [] \/ TunnelServers o = [] ->
  Start env o laddr n initial
  = (Panics (IndexOutOfRange 0 0), initial,
     [CloseCall (HListener ln) (close_err env (HListener ln))]).
Proof.
  intros Ha Hl Hempty. unfold Start. rewrite Ha, Hl.
  destruct o as [rs tss]. simpl in Hempty.
  destruct Hempty as [-> | ->]; [reflexivity|].
  destruct rs; reflexivity.
Qed.

Lemma Start_empty_endpoints_panics_witness :
  Start Double.quiet Double.outbound_no_resolver "127.0.0.1:7000" 3 initial
  = (Panics (IndexOutOfRange 0 0), initial,
     [CloseCall (HListener {| ln_id := 1 |}) None]).
Proof.
  apply (Start_empty_endpoints_panics Double.quiet
           Double.outbound_no_resolver "127.0.0.1:7000" 3
           "127.0.0.1:7000" {| ln_id := 1 |});
    [reflexivity | reflexivity | left; reflexivity].
Defined.

(** The same from the command line: without the flag [-udp], [main]
    passes an empty list of resolvers and the process panics. *)
Example main_without_udp_panics :
  cmd.main Double.quiet Double.key64 ""
    ["t.example.com"; "127.0.0.1:7000"] 3 initial
  = (Panics (IndexOutOfRange 0 0), initial,
     [CloseCall (HListener {| ln_id := 1 |}) None]).
Proof. vm_compute. reflexivity. Qed.

End BringUp.

(** ** The accept loop *)

Module AcceptLoop.

Lemma accept_events_shift (env : Env) (ln : TCPListener) (n i k : nat) :
  (k < n)%nat ->
  exists pre,
    accept_events env ln i n
    = pre ++ accept_events env ln (i + k) (n - k) /\
    Forall (fun ev => is_log ev = false) pre.
Proof.
  revert i n. induction k as [|k IH]; intros i n Hk.
  - exists []. rewrite Nat.add_0_r, Nat.sub_0_r. split; [reflexivity|constructor].
  - destruct n as [|n]; [lia|].
    destruct (IH (S i) n ltac:(lia)) as [pre [Hpre Hlog]].
    replace (i + S k)%nat with (S i + k)%nat by lia.
    replace (S n - S k)%nat with (n - k)%nat by lia.
    simpl accept_events at 1. rewrite Hpre.
    destruct (ln_Accept env ln i) as [c|e].
    + exists (Accept (Ok c) :: GoHandle c :: pre).
      split; [reflexivity|]. repeat constructor. exact Hlog.
    + exists (Accept (Err e) :: pre).
      split; [reflexivity|]. repeat constructor. exact Hlog.
Qed.

Lemma accept_events_no_log (env : Env) (ln : TCPListener) (n i : nat) :
  Forall (fun ev => is_log ev = false) (accept_events env ln i n).
Proof.
  revert i. induction n as [|n IH]; intros i; simpl; [constructor|].
  destruct (ln_Accept env ln i); repeat constructor; apply IH.
Qed.

(** C6, as the code has it.  However many calls of [Accept] have
    returned, the loop has not ended; a call that returns an error is
    followed by the next call and leaves no log line; a call that
    returns a connection is followed by the start of a goroutine for
    that connection. *)
Theorem accept_loop_continues (env : Env) (ln : TCPListener) (n i : nat)
    (s : StartState) :
  accept_loop env ln i n s = (NoReturn, s, accept_events env ln i n) /\
  (forall ev, In ev (accept_events env ln i n) -> is_log ev = false) /\
  (forall k e, (S k < n)%nat -> ln_Accept env ln (i + k) = Err e ->
     before (Accept (Err e)) (Accept (ln_Accept env ln (i + S k)))
       (accept_events env ln i n)) /\
  (forall k c, (k < n)%nat -> ln_Accept env ln (i + k) = Ok c ->
     before (Accept (Ok c)) (GoHandle c) (accept_events env ln i n)).
Proof.
  split; [apply BringUp.accept_loop_run|].
  split; [apply Forall_forall, accept_events_no_log|].
  split.
  - intros k e Hk He.
    destruct (accept_events_shift env ln n i k ltac:(lia)) as [pre [Hpre _]].
    rewrite Hpre.
    destruct (n - k)%nat as [|[|m]] eqn:Hm; [lia | lia |].
    simpl. rewrite He.
    replace (S (i + k)) with (i + S k)%nat by lia.
    exists pre, [].
    destruct (ln_Accept env ln (i + S k)) as [c'|e']; eexists; reflexivity.
  - intros k c Hk Hc.
    destruct (accept_events_shift env ln n i k Hk) as [pre [Hpre _]].
    rewrite Hpre.
    destruct (n - k)%nat as [|m] eqn:Hm; [lia|].
    simpl. rewrite Hc. exists pre, []. eexists. reflexivity.
Qed.

(** C6 as stated fails: an error returned by [Accept] is not logged.
    With every second [Accept] failing, two calls leave the failed
    call, the next call and its goroutine, and no log line that
    carries the error. *)
Lemma accept_error_not_logged :
  let e := Foreign "accept: too many open files" in
  let run := Start Double.flaky Double.outbound "127.0.0.1:7000" 2 initial in
  fst (fst run) = NoReturn /\
  before (Accept (Err e)) (GoHandle {| tcp_id := 1 |}) (snd run) /\
  ~ (exists format args, In (LogPrintf format args (Some e)) (snd run)).
Proof.
  intros e run. split; [reflexivity|]. split.
  - exists (firstn 14 (snd run)), [Accept (Ok {| tcp_id := 1 |})], [].
    reflexivity.
  - intros [format [args H]]. vm_compute in H.
    repeat (destruct H as [H | H]; [discriminate|]). exact H.
Qed.

End AcceptLoop.

(** ** The stream bridge *)

Module Bridge.

Lemma Merge_app {A : Type} (l1 l2 : list A) : Merge l1 l2 (l1 ++ l2).
Proof.
  induction l1 as [|x l1 IH]; simpl.
  - induction l2; constructor; assumption.
  - constructor. exact IH.
Qed.

Lemma Merge_nil_l {A : Type} (l : list A) : Merge [] l l.
Proof. exact (Merge_app [] l). Qed.

Lemma Merge_nil_r {A : Type} (l : list A) : Merge l [] l.
Proof. rewrite <- (app_nil_r l) at 2. apply Merge_app. Qed.

(** Whatever the schedule, the goroutines' events are shuffled together
    with the order of each kept. *)
Lemma interleave_Merge {A : Type} (sched : list bool) :
  forall l1 l2 : list A, Merge l1 l2 (interleave sched l1 l2).
Proof.
  induction sched as [|b sched IH]; intros l1 l2; simpl.
  - apply Merge_app.
  - destruct b.
    + destruct l1; [apply Merge_nil_l | constructor; apply IH].
    + destruct l2; [apply Merge_nil_r | constructor; apply IH].
Qed.

Lemma Merge_In {A : Type} (l1 l2 l : list A) (x : A) :
  Merge l1 l2 l -> (In x l <-> In x l1 \/ In x l2).
Proof.
  induction 1; simpl; tauto.
Qed.

(** Every shuffle is the work of some schedule. *)
Lemma Merge_interleave {A : Type} (l1 l2 l : list A) :
  Merge l1 l2 l -> exists sched, interleave sched l1 l2 = l.
Proof.
  induction 1 as [|x l1 l2 l _ [sched IH]|y l1 l2 l _ [sched IH]].
  - exists []. reflexivity.
  - exists (true :: sched). simpl. now rewrite IH.
  - exists (false :: sched). simpl. now rewrite IH.
Qed.

Section Run.
Variable env : Env.
Variables (t : Tunnel) (sess : SmuxSession) (k : KCPSession).
Variables (stream : Stream) (lconn : TCPConn).
Hypothesis Hsess : smuxSession t = Some sess.
Hypothesis Hk : kcpConn t = Some k.
Hypothesis Hopen : smux_OpenStream env sess = Ok stream.

Lemma GetConv_run : GetConv t = (Returns (conv k), t, []).
Proof. unfold GetConv, bind, get. rewrite Hk. reflexivity. Qed.

Lemma after_copy_run (format : string) (err : option error) :
  after_copy format stream err t
  = (Returns tt, t, copy_log format (conv k) stream err).
Proof.
  unfold after_copy, copy_log. destruct err as [e|]; [|reflexivity].
  destruct (is_EOF e); [reflexivity|]. simpl.
  destruct (Is_ErrClosedPipe e); [reflexivity|]. simpl.
  unfold bind. rewrite GetConv_run. reflexivity.
Qed.

Lemma copy_local_to_stream_run :
  copy_local_to_stream env stream lconn t
  = match io_Copy_to_stream env stream lconn with
    | None => (NoReturn, t, [])
    | Some err =>
        (Returns tt, t,
         copy_log "stream %08x:%d copy stream←local: %v" (conv k) stream err
         ++ [CloseRead lconn;
             CloseCall (HStream stream) (close_err env (HStream stream));
             WgDone LocalToStream])
    end.
Proof.
  unfold copy_local_to_stream, defer.
  destruct (io_Copy_to_stream env stream lconn) as [err|]; [|reflexivity].
  unfold bind at 1. rewrite after_copy_run. cbn.
  now rewrite <- app_assoc.
Qed.

Lemma copy_stream_to_local_run :
  copy_stream_to_local env stream lconn t
  = match io_Copy_to_local env lconn stream with
    | None => (NoReturn, t, [])
    | Some err =>
        (Returns tt, t,
         copy_log "stream %08x:%d copy local←stream: %v" (conv k) stream err
         ++ [CloseWrite lconn; WgDone StreamToLocal])
    end.
Proof.
  unfold copy_stream_to_local, defer.
  destruct (io_Copy_to_local env lconn stream) as [err|]; [|reflexivity].
  unfold bind at 1. rewrite after_copy_run. cbn.
  now rewrite <- app_assoc.
Qed.

Lemma Handle_run (sched : list bool) :
  Handle env sched lconn t
  = let up := snd (copy_local_to_stream env stream lconn t) in
    let down := snd (copy_stream_to_local env stream lconn t) in
    let begin :=
      LogPrintf "begin stream %08x:%d" [AInt (conv k); AInt (ID stream)]
        None in
    match io_Copy_to_stream env stream lconn,
          io_Copy_to_local env lconn stream with
    | Some _, Some _ =>
        (Returns None, t,
         begin :: interleave sched up down
         ++ [WgWait;
             LogPrintf "end stream %08x:%d"
               [AInt (conv k); AInt (ID stream)] None;
             CloseCall (HStream stream) (close_err env (HStream stream))])
    | _, _ => (NoReturn, t, begin :: interleave sched up down)
    end.
Proof.
  unfold Handle. unfold bind at 1. unfold smuxSession_OpenStream.
  unfold bind at 1. unfold get at 1. rewrite Hsess. unfold ret at 1.
  rewrite Hopen. cbv zeta. unfold defer.
  unfold bind at 1. rewrite GetConv_run.
  unfold bind at 1. unfold log at 1, emit at 1.
  unfold bind at 1. unfold go_both.
  rewrite copy_local_to_stream_run, copy_stream_to_local_run.
  destruct (io_Copy_to_stream env stream lconn) as [e1|],
           (io_Copy_to_local env lconn stream) as [e2|]; cbn.
  - unfold bind. rewrite GetConv_run. cbn.
    rewrite app_nil_r, <- app_assoc. reflexivity.
  - reflexivity.
  - reflexivity.
  - reflexivity.
Qed.

End Run.

Lemma copy_log_no_close (format : string) (c : Z) (stream : Stream)
    (err : option error) :
  Forall (fun ev => is_close ev = false) (copy_log format c stream err).
Proof.
  unfold copy_log. destruct err as [e|]; [|constructor].
  destruct (is_EOF e || Is_ErrClosedPipe e); repeat constructor.
Qed.

(** C7.  For a connection whose stream has been opened: the
    local-to-stream goroutine, when its copy completes, logs the error
    unless it is nil, [io.EOF] or a closed pipe, then calls [CloseRead]
    on the connection and closes the stream; the stream-to-local
    goroutine does the same with [CloseWrite] and closes nothing;
    [io.EOF] leaves no log line; and the events of the two goroutines,
    shuffled by the scheduler, are followed by the return of [wg.Wait],
    the deferred close of the stream and the release of the connection
    exactly when both copies have completed. *)
Theorem Handle_bridges (env : Env) (sched : list bool) (lconn : TCPConn)
    (t : Tunnel) (sess : SmuxSession) (k : KCPSession) (stream : Stream) :
  smuxSession t = Some sess ->
  kcpConn t = Some k ->
  smux_OpenStream env sess = Ok stream ->
  let close_stream :=
    CloseCall (HStream stream) (close_err env (HStream stream)) in
  let release := CloseCall (HConn lconn) (close_err env (HConn lconn)) in
  let ids := [AInt (conv k); AInt (ID stream)] in
  let up := snd (copy_local_to_stream env stream lconn t) in
  let down := snd (copy_stream_to_local env stream lconn t) in
  (forall err, io_Copy_to_stream env stream lconn = Some err ->
     up = copy_log "stream %08x:%d copy stream←local: %v" (conv k) stream err
          ++ [CloseRead lconn; close_stream; WgDone LocalToStream]) /\
  (forall err, io_Copy_to_local env lconn stream = Some err ->
     down = copy_log "stream %08x:%d copy local←stream: %v" (conv k) stream err
            ++ [CloseWrite lconn; WgDone StreamToLocal]) /\
  Forall (fun ev => is_close ev = false) down /\
  (forall format,
     after_copy format stream (Some io_EOF) t = (Returns tt, t, [])) /\
  exists body,
    Merge up down body /\
    handle_conn env sched lconn t
    = match io_Copy_to_stream env stream lconn,
            io_Copy_to_local env lconn stream with
      | Some _, Some _ =>
          (Returns tt, t,
           LogPrintf "begin stream %08x:%d" ids None :: body
           ++ [WgWait; LogPrintf "end stream %08x:%d" ids None;
               close_stream; release])
      | _, _ =>
          (NoReturn, t, LogPrintf "begin stream %08x:%d" ids None :: body)
      end /\
    (forall e1 e2,
       io_Copy_to_stream env stream lconn = Some e1 ->
       io_Copy_to_local env lconn stream = Some e2 ->
       In (WgDone LocalToStream) body /\ In (WgDone StreamToLocal) body).
Proof.
  intros Hsess Hk Hopen close_stream release ids up down.
  pose proof (copy_local_to_stream_run env t k stream lconn Hk) as Hup.
  pose proof (copy_stream_to_local_run env t k stream lconn Hk) as Hdown.
  split; [|split; [|split; [|split]]].
  - intros err Herr. unfold up. rewrite Hup, Herr. reflexivity.
  - intros err Herr. unfold down. rewrite Hdown, Herr. reflexivity.
  - unfold down. rewrite Hdown.
    destruct (io_Copy_to_local env lconn stream) as [err|]; simpl;
      [|constructor].
    apply Forall_app. split; [apply copy_log_no_close|].
    repeat constructor.
  - intros format. now rewrite (after_copy_run t k stream Hk).
  - exists (interleave sched up down).
    split; [apply interleave_Merge|]. split.
    + unfold handle_conn, defer. unfold bind at 1.
      rewrite (Handle_run env t sess k stream lconn Hsess Hk Hopen).
      cbv zeta. fold up. fold down.
      destruct (io_Copy_to_stream env stream lconn),
               (io_Copy_to_local env lconn stream); cbn;
        try reflexivity.
      rewrite app_nil_r, <- app_assoc. reflexivity.
    + intros e1 e2 H1 H2.
      rewrite !(Merge_In up down _ _ (interleave_Merge sched up down)).
      unfold up, down. rewrite Hup, Hdown, H1, H2. simpl.
      split; [left | right]; apply in_or_app; right; simpl; tauto.
Qed.

Lemma Handle_bridges_witness :
  let env := Double.quiet in
  let sched := [true; false; true] in
  let lconn := {| tcp_id := 7 |} in
  let t := Double.ready in
  let k := Double.fresh_session in
  let stream := {| ID := 1 |} in
  let close_stream :=
    CloseCall (HStream stream) (close_err env (HStream stream)) in
  let release := CloseCall (HConn lconn) (close_err env (HConn lconn)) in
  let ids := [AInt (conv k); AInt (ID stream)] in
  let up := snd (copy_local_to_stream env stream lconn t) in
  let down := snd (copy_stream_to_local env stream lconn t) in
  (forall err, io_Copy_to_stream env stream lconn = Some err ->
     up = copy_log "stream %08x:%d copy stream←local: %v" (conv k) stream err
          ++ [CloseRead lconn; close_stream; WgDone LocalToStream]) /\
  (forall err, io_Copy_to_local env lconn stream = Some err ->
     down = copy_log "stream %08x:%d copy local←stream: %v" (conv k) stream err
            ++ [CloseWrite lconn; WgDone StreamToLocal]) /\
  Forall (fun ev => is_close ev = false) down /\
  (forall format,
     after_copy format stream (Some io_EOF) t = (Returns tt, t, [])) /\
  exists body,
    Merge up down body /\
    handle_conn env sched lconn t
    = (Returns tt, t,
       LogPrintf "begin stream %08x:%d" ids None :: body
       ++ [WgWait; LogPrintf "end stream %08x:%d" ids None;
           close_stream; release]) /\
    (forall e1 e2,
       io_Copy_to_stream env stream lconn = Some e1 ->
       io_Copy_to_local env lconn stream = Some e2 ->
       In (WgDone LocalToStream) body /\ In (WgDone StreamToLocal) body).
Proof.
  intros env sched lconn t k stream.
  apply (Handle_bridges env sched lconn t
           {| smux_id := 4;
              smux_config :=
                {| Version := 2; KeepAliveTimeout := idleTimeout;
                   MaxStreamBuffer := 1048576 |} |}
           k stream);
    reflexivity.
Defined.

(** C10.  When the stream has been opened and both copies have
    completed, [Handle] returns nil whatever the copies returned; an
    error of a copy that is neither [io.EOF] nor a closed pipe is in a
    log line of the trace, and nowhere in the result. *)
Theorem Handle_returns_nil (env : Env) (sched : list bool)
    (lconn : TCPConn) (t : Tunnel) (sess : SmuxSession) (k : KCPSession)
    (stream : Stream) (e1 e2 : option error) :
  smuxSession t = Some sess ->
  kcpConn t = Some k ->
  smux_OpenStream env sess = Ok stream ->
  io_Copy_to_stream env stream lconn = Some e1 ->
  io_Copy_to_local env lconn stream = Some e2 ->
  exists tr,
    Handle env sched lconn t = (Returns None, t, tr) /\
    (forall e, e1 = Some e \/ e2 = Some e ->
       is_EOF e = false -> Is_ErrClosedPipe e = false ->
       exists format args, In (LogPrintf format args (Some e)) tr).
Proof.
  intros Hsess Hk Hopen H1 H2.
  rewrite (Handle_run env t sess k stream lconn Hsess Hk Hopen).
  cbv zeta. rewrite H1, H2. eexists. split; [reflexivity|].
  intros e He Heof Hpipe.
  rewrite (copy_local_to_stream_run env t k stream lconn Hk), H1.
  rewrite (copy_stream_to_local_run env t k stream lconn Hk), H2.
  simpl snd.
  destruct He as [-> | ->].
  - exists "stream %08x:%d copy stream←local: %v",
           [AInt (conv k); AInt (ID stream)].
    right. apply in_or_app. left.
    eapply Merge_In; [apply interleave_Merge|]. left.
    unfold copy_log. rewrite Heof, Hpipe. simpl. tauto.
  - exists "stream %08x:%d copy local←stream: %v",
           [AInt (conv k); AInt (ID stream)].
    right. apply in_or_app. left.
    eapply Merge_In; [apply interleave_Merge|]. right.
    unfold copy_log. rewrite Heof, Hpipe. simpl. tauto.
Qed.

Lemma Handle_returns_nil_witness :
  let reset := Foreign "connection reset by peer" in
  let env :=
    Double.env Double.accept_all (Some (Some reset)) (Some (Some io_EOF))
      (fun _ => None) in
  exists tr,
    Handle env [false; true] {| tcp_id := 7 |} Double.ready
    = (Returns None, Double.ready, tr) /\
    (forall e, Some reset = Some e \/ Some io_EOF = Some e ->
       is_EOF e = false -> Is_ErrClosedPipe e = false ->
       exists format args, In (LogPrintf format args (Some e)) tr).
Proof.
  intros reset env.
  apply (Handle_returns_nil env [false; true] {| tcp_id := 7 |}
           Double.ready
           {| smux_id := 4;
              smux_config :=
                {| Version := 2; KeepAliveTimeout := idleTimeout;
                   MaxStreamBuffer := 1048576 |} |}
           Double.fresh_session {| ID := 1 |}
           (Some reset) (Some io_EOF));
    reflexivity.
Defined.

End Bridge.

(** ** Endpoint configuration and the bring-up methods, one by one *)

Module Methods.

(** X1.  A [TunnelServer] that [NewTunnelServer] returns has an MTU of at
    least 80, keeps the key string it was given, and holds the parsed
    address and the decoded key. *)
Theorem NewTunnelServer_invariant (env : Env) (addr pubKeyString : string)
    (ts : TunnelServer) :
  NewTunnelServer env addr pubKeyString = Ok ts ->
  80 <= MTU ts /\
  MTU ts = derive_mtu env (Addr ts) /\
  PubKey ts = pubKeyString /\
  dns_ParseName env addr = Ok (Addr ts) /\
  noise_DecodeKey env pubKeyString = Ok (decodedNoisePubKey ts).
Proof.
  unfold NewTunnelServer.
  destruct (dns_ParseName env addr) as [d|e]; [|discriminate].
  destruct (noise_DecodeKey env pubKeyString) as [key|e]; [|discriminate].
  destruct (Z.ltb_spec (derive_mtu env d) 80) as [Hlt|Hge]; [discriminate|].
  intros H. injection H as <-. simpl. auto.
Qed.

Lemma NewTunnelServer_invariant_witness :
  let ts :=
    {| Addr := ["t"; "example"; "com"]; PubKey := Double.key64; MTU := 134;
       decodedNoisePubKey :=
         [0; 1; 2; 3; 4; 5; 6; 7; 8; 9; 10; 11; 12; 13; 14; 15; 16; 17;
          18; 19; 20; 21; 22; 23; 24; 25; 26; 27; 28; 29; 30; 31] |} in
  80 <= MTU ts /\
  MTU ts = derive_mtu Double.quiet (Addr ts) /\
  PubKey ts = Double.key64 /\
  dns_ParseName Double.quiet "t.example.com" = Ok (Addr ts) /\
  noise_DecodeKey Double.quiet Double.key64 = Ok (decodedNoisePubKey ts).
Proof.
  intros ts.
  apply (NewTunnelServer_invariant Double.quiet "t.example.com" Double.key64 ts).
  vm_compute. reflexivity.
Defined.

(** X2.  [NewTunnelServer] fails for exactly three reasons, looked at in
    this order: the address does not parse, the key does not decode, the
    derived MTU is below 80.  The first two errors wrap their cause. *)
Theorem NewTunnelServer_failures (env : Env) (addr pubKeyString : string) :
  match NewTunnelServer env addr pubKeyString with
  | Ok _ => True
  | Err err =>
      (exists e, dns_ParseName env addr = Err e /\
                 err = Errorf_w "invalid domain %+q: %w" [AStr addr] e /\
                 Unwrap err = Some e) \/
      (exists d e, dns_ParseName env addr = Ok d /\
                   noise_DecodeKey env pubKeyString = Err e /\
                   err = Errorf_w "pubkey format error: %w" [] e /\
                   Unwrap err = Some e) \/
      (exists d key, dns_ParseName env addr = Ok d /\
                     noise_DecodeKey env pubKeyString = Ok key /\
                     derive_mtu env d < 80 /\
                     err = Errorf "domain %s leaves only %d bytes for payload"
                             [AStr (Name_String d);
                              AInt (derive_mtu env d)] /\
                     Unwrap err = None)
  end.
Proof.
  unfold NewTunnelServer.
  destruct (dns_ParseName env addr) as [d|e].
  - destruct (noise_DecodeKey env pubKeyString) as [key|e].
    + destruct (Z.ltb_spec (derive_mtu env d) 80) as [Hlt|Hge]; [|exact I].
      right. right. exists d, key. auto.
    + right. left. exists d, e. auto.
  - left. exists e. auto.
Qed.

(** X3.  [InitiateResolverConnection] is all or nothing.  It returns nil
    only for a UDP resolver whose address resolves and for which a socket
    opens, and then stores both the socket and the resolved address; in
    every other case it returns the error as it is (or the unsupported
    type) and leaves the Tunnel as it was.  It never panics and logs
    nothing. *)
Theorem InitiateResolverConnection_all_or_nothing (env : Env) (t : Tunnel) :
  exists r t',
    InitiateResolverConnection env t = (Returns r, t', []) /\
    match r with
    | None =>
        ResolverType' (Resolver' t) = ResolverTypeUDP /\
        exists a c,
          net_ResolveUDPAddr env (ResolverAddr (Resolver' t)) = Ok a /\
          net_ListenUDP env = Ok c /\
          t' = set_resolverConn c a t /\
          resolverConn t' = Some c /\ addr t' = Some a
    | Some e =>
        t' = t /\
        (ResolverType' (Resolver' t) <> ResolverTypeUDP /\
         e = Errorf "unsupported resolver type: %s"
               [AStr (ResolverType' (Resolver' t))] \/
         net_ResolveUDPAddr env (ResolverAddr (Resolver' t)) = Err e \/
         net_ListenUDP env = Err e)
    end.
Proof.
  unfold InitiateResolverConnection, bind, get, put, ret.
  destruct (String.eqb_spec (ResolverType' (Resolver' t)) ResolverTypeUDP)
    as [Hudp|Hnot].
  - destruct (net_ResolveUDPAddr env (ResolverAddr (Resolver' t)))
      as [a|e] eqn:Ha.
    + destruct (net_ListenUDP env) as [c|e] eqn:Hc.
      * exists None, (set_resolverConn c a t). split; [reflexivity|].
        split; [exact Hudp|]. exists a, c. auto.
      * exists (Some e), t. split; [reflexivity|]. auto.
    + exists (Some e), t. split; [reflexivity|]. auto.
  - eexists (Some _), t. split; [reflexivity|]. auto.
Qed.

(** X4.  A [Resolver] that [NewResolver] has accepted is a UDP resolver,
    so a Tunnel built on it never meets the unsupported-type error:
    [InitiateResolverConnection] can only fail with an error of the
    network, and [InitiateDNSPacketConn] always returns nil and stores a
    DNS connection made of the Tunnel's socket and address and of the
    domain. *)
Theorem validated_resolver_is_supported (env : Env) (ty : ResolverType)
    (a : string) (r : Resolver) (t : Tunnel) (d : Name) :
  NewResolver ty a = Ok r ->
  Resolver' t = r ->
  ty = ResolverTypeUDP /\
  r = {| ResolverType' := ty; ResolverAddr := a |} /\
  (forall e,
      fst (fst (InitiateResolverConnection env t)) = Returns (Some e) ->
      net_ResolveUDPAddr env a = Err e \/ net_ListenUDP env = Err e) /\
  InitiateDNSPacketConn d t
  = (Returns None,
     set_dnsPacketConn (NewDNSPacketConn (resolverConn t) (addr t) d) t, []).
Proof.
  unfold NewResolver. intros Hnew Hr.
  destruct (String.eqb_spec ty ResolverTypeUDP) as [Hudp|Hnot];
    [|discriminate].
  injection Hnew as <-. subst ty.
  split; [reflexivity|]. split; [reflexivity|].
  assert (Hty : ResolverType' (Resolver' t) = ResolverTypeUDP)
    by (rewrite Hr; reflexivity).
  assert (Had : ResolverAddr (Resolver' t) = a) by (rewrite Hr; reflexivity).
  split.
  - intros e. unfold InitiateResolverConnection, bind, get, put, ret.
    rewrite Hty, Had, String.eqb_refl.
    destruct (net_ResolveUDPAddr env a) as [a'|e1];
      [|simpl; intros H; injection H as ->; auto].
    destruct (net_ListenUDP env) as [c|e2];
      [simpl; discriminate | simpl; intros H; injection H as ->; auto].
  - unfold InitiateDNSPacketConn, bind, get, put, ret.
    rewrite Hty. reflexivity.
Qed.

Lemma validated_resolver_is_supported_witness :
  let r := Double.udp_resolver in
  let t := Double.idle in
  let d := ["t"; "example"; "com"] in
  "udp" = ResolverTypeUDP /\
  r = {| ResolverType' := "udp"; ResolverAddr := "8.8.8.8:53" |} /\
  (forall e,
      fst (fst (InitiateResolverConnection Double.quiet t))
      = Returns (Some e) ->
      net_ResolveUDPAddr Double.quiet "8.8.8.8:53" = Err e \/
      net_ListenUDP Double.quiet = Err e) /\
  InitiateDNSPacketConn d t
  = (Returns None,
     set_dnsPacketConn (NewDNSPacketConn (resolverConn t) (addr t) d) t, []).
Proof.
  intros r t d.
  apply (validated_resolver_is_supported Double.quiet "udp" "8.8.8.8:53"
           r t d); reflexivity.
Defined.

(** X5.  [InitiateKCPConn] stores a session exactly when it returns nil.
    It returns an error only when the session could not be opened, and
    then has logged nothing; it panics only on a rejected unit size; in
    both cases the Tunnel is as it was. *)
Theorem InitiateKCPConn_stores_iff_nil (env : Env) (m : Z) (t : Tunnel) :
  let run := InitiateKCPConn env m t in
  match fst (fst run) with
  | Returns None =>
      exists conn,
        kcp_NewConn2 env (addr t) (dnsPacketConn t) = Ok conn /\
        kcp_SetMtu env (configured env conn) m = true /\
        snd (fst run) = set_kcpConn (with_mtu m (configured env conn)) t
  | Returns (Some err) =>
      exists e,
        kcp_NewConn2 env (addr t) (dnsPacketConn t) = Err e /\
        err = Errorf_v "opening KCP conn: %v" [] e /\
        Unwrap err = None /\
        snd (fst run) = t /\ snd run = []
  | Panics v =>
      v = PanicBool false /\ snd (fst run) = t /\
      exists conn,
        kcp_NewConn2 env (addr t) (dnsPacketConn t) = Ok conn /\
        kcp_SetMtu env (configured env conn) m = false
  | NoReturn => False
  end.
Proof.
  unfold InitiateKCPConn, bind, get, put, log, emit, ret, panic. cbv zeta.
  destruct (kcp_NewConn2 env (addr t) (dnsPacketConn t)) as [conn|e].
  - fold (configured env conn).
    destruct (kcp_SetMtu env (configured env conn) m) eqn:Hm; cbn.
    + exists conn. auto.
    + split; [reflexivity|]. split; [reflexivity|]. exists conn. auto.
  - cbn. exists e. auto.
Qed.

End Methods.

(** ** Runs of Start *)

Module StartRuns.

Ltac norm :=
  cbv beta iota zeta delta
    [defer bind lift_outcome index nth_error alloc set_tunnels stage
     on_tunnel check get put emit ret panic log close
     InitiateResolverConnection InitiateDNSPacketConn InitiateKCPConn
     InitiateNoiseChannel InitiateSmuxSession GetConv Close NewTunnel
     initial cell tunnels app negb Resolvers TunnelServers fst snd
     set_resolverConn set_dnsPacketConn set_kcpConn set_noiseChannel
     set_smuxSession Resolver' TunnelServer' addr resolverConn
     dnsPacketConn kcpConn noiseChannel smuxSession].

(** Once the listener is open: one goal for each way the run can go. *)
Ltac after_listen o :=
  destruct o as [[|?resolver ?rs] [|?ts ?tss]];
  norm; repeat (BringUp.env_step; norm);
  try rewrite BringUp.accept_loop_run; norm.

Ltac start_cases env o laddr :=
  unfold Start;
  destruct (net_ResolveTCPAddr env laddr) as [?localAddr|?e] eqn:?Haddr;
  [destruct (net_ListenTCP env localAddr) as [?ln|?e] eqn:?Hln;
   [after_listen o | norm]
  | norm].

Lemma filter_accept_events (f : Event -> bool) (env : Env)
    (ln : TCPListener) (n i : nat) :
  (forall r, f (Accept r) = false) ->
  (forall c, f (GoHandle c) = false) ->
  filter f (accept_events env ln i n) = [].
Proof.
  intros Ha Hg. revert i.
  induction n as [|n IH]; intros i; simpl; [reflexivity|].
  destruct (ln_Accept env ln i); simpl; rewrite ?Ha, ?Hg; apply IH.
Qed.


(** Whatever the run, what [Start] returns is not nil. *)
Lemma Start_result (env : Env) (o : Outbound) (laddr : string) (n : nat)
    (s0 s : StartState) (res : outcome (option error)) (tr : list Event) :
  Start env o laddr n s0 = (res, s, tr) -> res <> Returns None.
Proof.
  intros H. assert (Hres : res = fst (fst (Start env o laddr n s0)))
    by now rewrite H.
  rewrite Hres. clear. start_cases env o laddr; discriminate.
Qed.

(** X6.  [Start] never returns nil: it returns an error, panics, or is
    still serving. *)
Theorem Start_never_returns_nil (env : Env) (o : Outbound) (laddr : string)
    (n : nat) (s0 : StartState) :
  fst (fst (Start env o laddr n s0)) <> Returns None.
Proof.
  destruct (Start env o laddr n s0) as [[res s] tr] eqn:H. simpl.
  exact (Start_result env o laddr n s0 s res tr H).
Qed.

(** X7.  Once the listener is open, [Start] closes it exactly once on
    every path on which it ends, by an error or by a panic, and this
    close is the last thing it does; while it serves, the listener is
    not closed. *)
Theorem Start_closes_listener (env : Env) (o : Outbound) (laddr : string)
    (n : nat) (s0 : StartState) (a : TCPAddr) (ln : TCPListener) :
  net_ResolveTCPAddr env laddr = Ok a ->
  net_ListenTCP env a = Ok ln ->
  let run := Start env o laddr n s0 in
  let c := CloseCall (HListener ln) (close_err env (HListener ln)) in
  listener_closes (snd run)
  = match fst (fst run) with NoReturn => [] | _ => [c] end /\
  (fst (fst run) <> NoReturn -> exists pre, snd run = pre ++ [c]).
Proof.
  intros Ha Hl. unfold Start. rewrite Ha, Hl.
  after_listen o.
  all: split;
    [ unfold listener_closes; simpl;
      try apply filter_accept_events; reflexivity
    | intros Hend; try (exfalso; apply Hend; reflexivity);
      match goal with
      | |- exists pre, ?l = _ => exists (removelast l); reflexivity
      end ].
Qed.

Lemma Start_closes_listener_witness :
  let env := Double.no_handshake in
  let run := Start env Double.outbound "127.0.0.1:7000" 5 initial in
  let c := CloseCall (HListener {| ln_id := 1 |})
             (close_err env (HListener {| ln_id := 1 |})) in
  listener_closes (snd run)
  = match fst (fst run) with NoReturn => [] | _ => [c] end /\
  (fst (fst run) <> NoReturn -> exists pre, snd run = pre ++ [c]).
Proof.
  intros env.
  apply (Start_closes_listener env Double.outbound "127.0.0.1:7000" 5
           initial "127.0.0.1:7000" {| ln_id := 1 |}); reflexivity.
Defined.

(** X8.  [Start] uses the first resolver and the first tunnel server and
    nothing else of the two lists. *)
Theorem Start_uses_first_only (env : Env) (laddr : string) (n : nat)
    (s0 : StartState) (r : Resolver) (rs : list Resolver)
    (ts : TunnelServer) (tss : list TunnelServer) :
  Start env {| Resolvers := r :: rs; TunnelServers := ts :: tss |} laddr n s0
  = Start env {| Resolvers := [r]; TunnelServers := [ts] |} laddr n s0.
Proof.
  unfold Start.
  destruct (net_ResolveTCPAddr env laddr) as [a|e]; [|reflexivity].
  destruct (net_ListenTCP env a) as [ln|e]; reflexivity.
Qed.

(** X9.  [Start] is in its accept loop only after the whole bring-up:
    the Tunnel is made of the first resolver and the first tunnel server,
    holds all five handles, its DNS connection is scoped to the server's
    domain, its KCP session has the server's MTU, [o.tunnels] holds the
    Tunnel, and no goroutine was started before the smux stage had
    returned nil. *)
Theorem Start_serves_after_bring_up (env : Env) (o : Outbound)
    (laddr : string) (n : nat) (s0 : StartState) :
  fst (fst (Start env o laddr n s0)) = NoReturn ->
  exists r rs ts tss a ln t,
    Resolvers o = r :: rs /\
    TunnelServers o = ts :: tss /\
    net_ResolveTCPAddr env laddr = Ok a /\
    net_ListenTCP env a = Ok ln /\
    snd (fst (Start env o laddr n s0))
    = {| tunnels := [ptr]; cell := Some t |} /\
    Resolver' t = r /\ TunnelServer' t = ts /\
    present_layers t = bring_up_order /\
    dnsPacketConn t
    = Some (NewDNSPacketConn (resolverConn t) (addr t) (Addr ts)) /\
    (exists k, kcpConn t = Some k /\ mtu k = MTU ts) /\
    exists pre,
      snd (Start env o laddr n s0) = pre ++ accept_events env ln 0 n /\
      In (Leave LSmux None) pre /\ started pre = [].
Proof.
  start_cases env o laddr; intros Hserve; try discriminate.
  do 7 eexists.
  repeat (split; [first [reflexivity | eassumption]|]).
  split; [eexists; split; reflexivity|].
  match goal with
  | |- exists pre, ?l = _ /\ _ => exists (firstn 14 l)
  end.
  split; [reflexivity|]. split; [simpl; tauto | reflexivity].
Qed.

Lemma Start_serves_after_bring_up_witness :
  let env := Double.quiet in
  let o := Double.outbound in
  exists r rs ts tss a ln t,
    Resolvers o = r :: rs /\
    TunnelServers o = ts :: tss /\
    net_ResolveTCPAddr env "127.0.0.1:7000" = Ok a /\
    net_ListenTCP env a = Ok ln /\
    snd (fst (Start env o "127.0.0.1:7000" 3 initial))
    = {| tunnels := [ptr]; cell := Some t |} /\
    Resolver' t = r /\ TunnelServer' t = ts /\
    present_layers t = bring_up_order /\
    dnsPacketConn t
    = Some (NewDNSPacketConn (resolverConn t) (addr t) (Addr ts)) /\
    (exists k, kcpConn t = Some k /\ mtu k = MTU ts) /\
    exists pre,
      snd (Start env o "127.0.0.1:7000" 3 initial)
      = pre ++ accept_events env ln 0 3 /\
      In (Leave LSmux None) pre /\ started pre = [].
Proof.
  intros env o.
  apply (Start_serves_after_bring_up env o "127.0.0.1:7000" 3 initial).
  reflexivity.
Defined.

(** X10.  In every run of [Start] the handles of the Tunnel are set in
    bring-up order: the layers that hold a handle when the run ends are
    the first [k] layers, for some [k]. *)
Theorem Start_sets_handles_in_order (env : Env) (o : Outbound)
    (laddr : string) (n : nat) :
  match cell (snd (fst (Start env o laddr n initial))) with
  | Some t => exists k, present_layers t = firstn k bring_up_order
  | None => True
  end.
Proof.
  start_cases env o laddr; try exact I.
  all: first [ exists 0%nat; reflexivity | exists 1%nat; reflexivity
             | exists 2%nat; reflexivity | exists 3%nat; reflexivity
             | exists 4%nat; reflexivity | exists 5%nat; reflexivity ].
Qed.


End StartRuns.

(** ** Connections *)

Module Connections.

Lemma filter_interleave_nil {A : Type} (f : A -> bool) (sched : list bool) :
  forall l1 l2 : list A,
    filter f l1 = [] -> filter f l2 = [] ->
    filter f (interleave sched l1 l2) = [].
Proof.
  induction sched as [|b sched IH]; intros l1 l2 H1 H2; simpl.
  - now rewrite filter_app, H1, H2.
  - destruct b.
    + destruct l1 as [|x l1]; [exact H2|].
      simpl in *. destruct (f x); [discriminate|]. now apply IH.
    + destruct l2 as [|y l2]; [exact H1|].
      simpl in *. destruct (f y); [discriminate|]. now apply IH.
Qed.

Lemma conn_closes_copy_log (format : string) (c : Z) (stream : Stream)
    (err : option error) :
  conn_closes (copy_log format c stream err) = [].
Proof.
  unfold copy_log. destruct err as [e|]; [|reflexivity].
  destruct (is_EOF e || Is_ErrClosedPipe e); reflexivity.
Qed.

Section Opened.
Variable env : Env.
Variables (t : Tunnel) (sess : SmuxSession) (k : KCPSession).
Variables (stream : Stream) (lconn : TCPConn) (sched : list bool).
Hypothesis Hsess : smuxSession t = Some sess.
Hypothesis Hk : kcpConn t = Some k.
Hypothesis Hopen : smux_OpenStream env sess = Ok stream.

(** The goroutines of a bridge do not close the connection itself. *)
Lemma conn_closes_goroutines :
  conn_closes
    (interleave sched (snd (copy_local_to_stream env stream lconn t))
                      (snd (copy_stream_to_local env stream lconn t)))
  = [].
Proof.
  apply filter_interleave_nil.
  - rewrite (Bridge.copy_local_to_stream_run env t k stream lconn Hk).
    destruct (io_Copy_to_stream env stream lconn); [|reflexivity].
    simpl. unfold conn_closes. rewrite filter_app.
    fold (conn_closes
            (copy_log "stream %08x:%d copy stream←local: %v" (conv k)
               stream o)).
    now rewrite conn_closes_copy_log.
  - rewrite (Bridge.copy_stream_to_local_run env t k stream lconn Hk).
    destruct (io_Copy_to_local env lconn stream); [|reflexivity].
    simpl. unfold conn_closes. rewrite filter_app.
    fold (conn_closes
            (copy_log "stream %08x:%d copy local←stream: %v" (conv k)
               stream o)).
    now rewrite conn_closes_copy_log.
Qed.

Lemma handle_conn_eq :
  handle_conn env sched lconn t
  = let body :=
      interleave sched (snd (copy_local_to_stream env stream lconn t))
                       (snd (copy_stream_to_local env stream lconn t)) in
    let ids := [AInt (conv k); AInt (ID stream)] in
    match io_Copy_to_stream env stream lconn,
          io_Copy_to_local env lconn stream with
    | Some _, Some _ =>
        (Returns tt, t,
         LogPrintf "begin stream %08x:%d" ids None :: body
         ++ [WgWait; LogPrintf "end stream %08x:%d" ids None;
             CloseCall (HStream stream) (close_err env (HStream stream));
             CloseCall (HConn lconn) (close_err env (HConn lconn))])
    | _, _ =>
        (NoReturn, t, LogPrintf "begin stream %08x:%d" ids None :: body)
    end.
Proof.
  unfold handle_conn, defer. unfold bind at 1.
  rewrite (Bridge.Handle_run env t sess k stream lconn Hsess Hk Hopen).
  cbv zeta.
  destruct (io_Copy_to_stream env stream lconn),
           (io_Copy_to_local env lconn stream); cbn; try reflexivity.
  rewrite app_nil_r, <- app_assoc. reflexivity.
Qed.

Lemma handle_conn_opened :
  let run := handle_conn env sched lconn t in
  snd (fst run) = t /\
  conn_closes (snd run)
  = match fst (fst run) with
    | NoReturn => []
    | _ => [CloseCall (HConn lconn) (close_err env (HConn lconn))]
    end.
Proof.
  cbv zeta. rewrite handle_conn_eq. cbv zeta.
  pose proof conn_closes_goroutines as Hg.
  unfold conn_closes in *.
  destruct (io_Copy_to_stream env stream lconn),
           (io_Copy_to_local env lconn stream);
    (split; [reflexivity|]); cbn [fst snd filter]; try exact Hg.
  rewrite filter_app, Hg. reflexivity.
Qed.

End Opened.

(** [handle_conn] on any Tunnel and with any answers of the layers. *)
Lemma handle_conn_run (env : Env) (sched : list bool) (lconn : TCPConn)
    (t : Tunnel) :
  let run := handle_conn env sched lconn t in
  snd (fst run) = t /\
  conn_closes (snd run)
  = match fst (fst run) with
    | NoReturn => []
    | _ => [CloseCall (HConn lconn) (close_err env (HConn lconn))]
    end.
Proof.
  destruct (smuxSession t) as [sess|] eqn:Hsess.
  - destruct (smux_OpenStream env sess) as [stream|e] eqn:Hopen.
    + destruct (kcpConn t) as [k|] eqn:Hk.
      * exact (handle_conn_opened env t sess k stream lconn sched
                 Hsess Hk Hopen).
      * destruct t as [r s a rc dc kc nc sc]. simpl in Hsess, Hk. subst.
        cbv [handle_conn Handle smuxSession_OpenStream defer bind get ret
             GetConv panic close emit log smuxSession kcpConn fst snd].
        rewrite Hopen. cbn. auto.
    + destruct t as [r s a rc dc kc nc sc]. simpl in Hsess. subst.
      cbv [handle_conn Handle smuxSession_OpenStream defer bind get ret
           GetConv panic close emit log log_err smuxSession kcpConn
           fst snd].
      rewrite Hopen. destruct kc; cbn; auto.
  - destruct t as [r s a rc dc kc nc sc]. simpl in Hsess. subst.
    cbv [handle_conn Handle smuxSession_OpenStream defer bind get ret
         panic close emit smuxSession fst snd].
    cbn. auto.
Qed.

(** X12.  The goroutine of an accepted connection closes the connection
    exactly once on every path on which [Handle] ends: when the stream
    cannot be opened, when both copies have completed, and when [Handle]
    panics.  It does not close it while a copy is still running. *)
Theorem handle_conn_releases_once (env : Env) (sched : list bool)
    (lconn : TCPConn) (t : Tunnel) :
  let run := handle_conn env sched lconn t in
  conn_closes (snd run)
  = match fst (fst run) with
    | NoReturn => []
    | _ => [CloseCall (HConn lconn) (close_err env (HConn lconn))]
    end.
Proof.
  exact (proj2 (handle_conn_run env sched lconn t)).
Qed.

(** X13.  Neither [Handle], nor the goroutine around it, nor the two
    copy goroutines write the Tunnel: whatever happens to one connection,
    the handles that the other connections share are as they were. *)
Theorem handle_conn_keeps_tunnel (env : Env) (sched : list bool)
    (lconn : TCPConn) (stream : Stream) (t : Tunnel) :
  snd (fst (handle_conn env sched lconn t)) = t /\
  snd (fst (copy_local_to_stream env stream lconn t)) = t /\
  snd (fst (copy_stream_to_local env stream lconn t)) = t.
Proof.
  split; [exact (proj1 (handle_conn_run env sched lconn t))|].
  destruct t as [r s a rc dc kc nc sc].
  split.
  - cbv [copy_local_to_stream defer bind after_copy GetConv get ret panic
         never log_err emit close kcpConn fst snd].
    destruct (io_Copy_to_stream env stream lconn) as [[e|]|];
      try reflexivity.
    destruct (is_EOF e); [reflexivity|].
    destruct (Is_ErrClosedPipe e); [reflexivity|].
    destruct kc; reflexivity.
  - cbv [copy_stream_to_local defer bind after_copy GetConv get ret panic
         never log_err emit close kcpConn fst snd].
    destruct (io_Copy_to_local env lconn stream) as [[e|]|];
      try reflexivity.
    destruct (is_EOF e); [reflexivity|].
    destruct (Is_ErrClosedPipe e); [reflexivity|].
    destruct kc; reflexivity.
Qed.

(** X14.  When the stream cannot be opened, [Handle] starts no copy and
    returns the error of the multiplexer wrapped with the session
    number; the goroutine logs it and closes the connection.
    [OpenStream] formats the same error with [%v] instead, so its cause
    cannot be unwrapped. *)
Theorem stream_open_failure (env : Env) (sched : list bool)
    (lconn : TCPConn) (t : Tunnel) (sess : SmuxSession) (k : KCPSession)
    (e : error) :
  smuxSession t = Some sess ->
  kcpConn t = Some k ->
  smux_OpenStream env sess = Err e ->
  let wrapped :=
    Errorf_w "session %08x opening stream: %w" [AInt (conv k)] e in
  let formatted :=
    Errorf_v "session %08x opening stream: %v" [AInt (conv k)] e in
  Handle env sched lconn t = (Returns (Some wrapped), t, []) /\
  handle_conn env sched lconn t
  = (Returns tt, t,
     [LogPrintf "handle: %v" [] (Some wrapped);
      CloseCall (HConn lconn) (close_err env (HConn lconn))]) /\
  OpenStream env t = (Returns (Err formatted), t, []) /\
  Unwrap wrapped = Some e /\
  Unwrap formatted = None /\
  Is_ErrClosedPipe wrapped = Is_ErrClosedPipe e /\
  Is_ErrClosedPipe formatted = false.
Proof.
  intros Hsess Hk Hopen wrapped formatted.
  assert (Ho : smuxSession_OpenStream env t = (Returns (Err e), t, [])).
  { unfold smuxSession_OpenStream, bind, get. cbn. rewrite Hsess.
    unfold ret. now rewrite Hopen. }
  assert (HH : Handle env sched lconn t = (Returns (Some wrapped), t, [])).
  { unfold Handle. unfold bind at 1. rewrite Ho.
    unfold bind. rewrite (Bridge.GetConv_run t k Hk). reflexivity. }
  split; [exact HH|]. split.
  - unfold handle_conn, defer, bind. rewrite HH. reflexivity.
  - split; [|repeat split].
    unfold OpenStream. unfold bind at 1. rewrite Ho.
    unfold bind. rewrite (Bridge.GetConv_run t k Hk). reflexivity.
Qed.

Lemma stream_open_failure_witness :
  let refused := Foreign "smux: session shutdown" in
  let env :=
    {| dns_ParseName := Double.ParseName;
       noise_DecodeKey := Double.DecodeKey;
       dnsNameCapacity := Double.NameCapacity;
       numPadding := 3;
       turbotunnel_QueueSize := 128;
       net_ResolveTCPAddr := Double.nonempty;
       net_ListenTCP := fun _ => Ok {| ln_id := 1 |};
       ln_Accept := fun _ => Double.accept_all;
       net_ResolveUDPAddr := Double.nonempty;
       net_ListenUDP := Ok {| udp_id := 2 |};
       kcp_NewConn2 := fun _ _ => Ok Double.fresh_session;
       kcp_SetMtu := fun _ m => m <=? 1500;
       noise_NewClient := fun _ _ => Ok {| noise_id := 3 |};
       smux_Client := fun _ cfg => Ok {| smux_id := 4; smux_config := cfg |};
       smux_OpenStream := fun _ => Err refused;
       io_Copy_to_stream := fun _ _ => Some None;
       io_Copy_to_local := fun _ _ => Some None;
       close_err := fun _ => None |} in
  let lconn := {| tcp_id := 7 |} in
  let t := Double.ready in
  let wrapped :=
    Errorf_w "session %08x opening stream: %w" [AInt 305419896] refused in
  let formatted :=
    Errorf_v "session %08x opening stream: %v" [AInt 305419896] refused in
  Handle env [true] lconn t = (Returns (Some wrapped), t, []) /\
  handle_conn env [true] lconn t
  = (Returns tt, t,
     [LogPrintf "handle: %v" [] (Some wrapped);
      CloseCall (HConn lconn) (close_err env (HConn lconn))]) /\
  OpenStream env t = (Returns (Err formatted), t, []) /\
  Unwrap wrapped = Some refused /\
  Unwrap formatted = None /\
  Is_ErrClosedPipe wrapped = Is_ErrClosedPipe refused /\
  Is_ErrClosedPipe formatted = false.
Proof.
  intros refused env lconn t.
  apply (stream_open_failure env [true] lconn t
           {| smux_id := 4;
              smux_config :=
                {| Version := 2; KeepAliveTimeout := idleTimeout;
                   MaxStreamBuffer := 1048576 |} |}
           Double.fresh_session refused); reflexivity.
Defined.

End Connections.

(** ** The command line *)

Module CommandLine.

(** The Tunnel that a run of [Start] has made. *)
Lemma Start_tunnel (env : Env) (o : Outbound) (laddr : string) (n : nat) :
  match cell (snd (fst (Start env o laddr n initial))) with
  | Some t =>
      exists r rs ts tss,
        Resolvers o = r :: rs /\ TunnelServers o = ts :: tss /\
        Resolver' t = r /\ TunnelServer' t = ts /\
        forall k, kcpConn t = Some k -> mtu k = MTU ts
  | None => True
  end.
Proof.
  StartRuns.start_cases env o laddr; try exact I.
  all: do 4 eexists; repeat (split; [reflexivity|]).
  all: intros k Hk; cbn in Hk; try discriminate.
  all: injection Hk as <-; reflexivity.
Qed.

(** X15.  [main] does not return: it exits, panics, or keeps serving.
    The exit for an invalid [-udp] address is never taken, since the
    resolver type that [main] passes is the one [NewResolver] accepts;
    the usage exit is taken exactly when the positional arguments are not
    two. *)
Theorem main_endings (env : Env) (pubkeyString udpAddr : string)
    (args : list string) (n : nat) (s0 : StartState) :
  match fst (fst (cmd.main env pubkeyString udpAddr args n s0)) with
  | Returns cmd.Done => False
  | Returns (cmd.Exit_invalid_udp _) => False
  | Returns cmd.Exit_usage => List.length args <> 2%nat
  | _ => List.length args = 2%nat
  end.
Proof.
  unfold cmd.main.
  destruct args as [|arg0 [|arg1 [|arg2 args]]];
    try (simpl; intros H; discriminate).
  assert (Hres : exists rs,
    (if negb (udpAddr =? "")%string
     then match NewResolver ResolverTypeUDP udpAddr with
          | Ok resolver => Ok ([] ++ [resolver])
          | Err err => Err err
          end
     else Ok []) = Ok rs).
  { destruct (negb (udpAddr =? "")%string); eexists; reflexivity. }
  destruct Hres as [rs ->].
  destruct (NewTunnelServer env arg0 pubkeyString) as [tServer|e];
    [|reflexivity].
  unfold bind.
  destruct (Start env (NewOutbound rs [tServer]) arg1 n s0)
    as [[res s] tr] eqn:HS.
  pose proof (StartRuns.Start_result _ _ _ _ _ _ _ _ HS) as Hnil.
  destruct res as [[e|]|v|]; simpl; try reflexivity.
  apply Hnil. reflexivity.
Qed.

(** X16.  Whatever the command line and the answers of the layers, the
    KCP session of the Tunnel that [main] brings up has the MTU of the
    tunnel server that [NewTunnelServer] made of the first positional
    argument, and this is at least 80. *)
Theorem main_unit_size (env : Env) (pubkeyString udpAddr : string)
    (args : list string) (n : nat) :
  match cell (snd (fst (cmd.main env pubkeyString udpAddr args n initial)))
  with
  | Some t =>
      exists arg0 arg1,
        args = [arg0; arg1] /\
        NewTunnelServer env arg0 pubkeyString = Ok (TunnelServer' t) /\
        forall k, kcpConn t = Some k ->
                  mtu k = MTU (TunnelServer' t) /\ 80 <= mtu k
  | None => True
  end.
Proof.
  unfold cmd.main.
  destruct args as [|arg0 [|arg1 [|arg2 args]]]; try exact I.
  assert (Hres : exists rs,
    (if negb (udpAddr =? "")%string
     then match NewResolver ResolverTypeUDP udpAddr with
          | Ok resolver => Ok ([] ++ [resolver])
          | Err err => Err err
          end
     else Ok []) = Ok rs).
  { destruct (negb (udpAddr =? "")%string); eexists; reflexivity. }
  destruct Hres as [rs ->].
  destruct (NewTunnelServer env arg0 pubkeyString) as [tServer|e] eqn:Hts;
    [|exact I].
  pose proof (Start_tunnel env (NewOutbound rs [tServer]) arg1 n) as Ht.
  unfold bind.
  destruct (Start env (NewOutbound rs [tServer]) arg1 n initial)
    as [[res s] tr] eqn:HS.
  simpl in Ht.
  assert (Hs : cell (snd (fst
            (match res with
             | Returns a =>
                 let '(r2, s2, t2) :=
                   match a with
                   | Some err => ret (cmd.Fatal err)
                   | None => ret cmd.Done
                   end s in (r2, s2, tr ++ t2)
             | Panics v => (Panics v, s, tr)
             | NoReturn => (NoReturn, s, tr)
             end))) = cell s)
    by (destruct res as [[e|]|v|]; reflexivity).
  rewrite Hs. destruct (cell s) as [t|]; [|exact I].
  destruct Ht as [r [rs' [ts [tss [_ [Hl [_ [Hserver Hk]]]]]]]].
  simpl in Hl. injection Hl as <- _. subst tServer.
  exists arg0, arg1. split; [reflexivity|]. split; [exact Hts|].
  intros k Hkc. rewrite (Hk k Hkc). split; [reflexivity|].
  unfold NewTunnelServer in Hts.
  destruct (dns_ParseName env arg0) as [d|]; [|discriminate].
  destruct (noise_DecodeKey env pubkeyString); [|discriminate].
  destruct (Z.ltb_spec (derive_mtu env d) 80); [discriminate|].
  injection Hts as Hts. rewrite <- Hts. simpl. assumption.
Qed.

End CommandLine.

(** ** What a bring-up method leaves alone *)

Module Frame.




End Frame.
